(** * Atlas watch-server bot: the command layer and the watch loop

    A shallow embedding of [command.py]: the command classes, the command
    manager that dispatches chat messages to them, and the polling loop of
    [StartCommand.execute] with its per-server notification policy.

    Conventions of the embedding.
    - Python [str] values are Rocq strings read byte-wise (UTF-8).  Tests
      for a prefix, for equality and for emptiness are the same on bytes as
      on code points.  The methods that depend on Unicode tables and are
      applied to a command argument ([upper], [len], [isdecimal], [int]) are
      read from the environment record; module [Py] holds their ASCII
      instances, which the example worlds use.
    - Messages built with [str.format] are kept as the template together
      with the argument list ([Format]); messages built by concatenation
      are real strings ([Text]).
    - Collaborators that are not part of this module (the chat client, the
      HTTP request, the JSON decoder, [consts], [utils], the methods of the
      configuration object) are read from an environment record; sending a
      message and writing the error log are recorded as events and do not
      fail.
    - [print] calls (console diagnostics) are not recorded.
    - One pass of the watch loop is a single step: other handlers run
      while the loop sleeps between two passes, not inside a pass.  The
      event loop of the chat client is the [System] transition function at
      the end of the model. *)

From Stdlib Require Import ZArith List Ascii Bool Lia.
From stdpp Require Import gmap strings list.
Import ListNotations.

Local Open Scope Z_scope.

(** ** Python string primitives *)

Module Py.

Definition nl : string := String "010"%char EmptyString.

Definition is_lower (c : ascii) : bool :=
  let n := nat_of_ascii c in ((97 <=? n) && (n <=? 122))%nat.

Definition is_digit (c : ascii) : bool :=
  let n := nat_of_ascii c in ((48 <=? n) && (n <=? 57))%nat.

(** The characters [int] skips around a literal in an ASCII string: tab,
    line feed, vertical tab, form feed, carriage return and the blank. *)
Definition is_space (c : ascii) : bool :=
  let n := nat_of_ascii c in
  (((9 <=? n) && (n <=? 13)) || (n =? 32))%nat.

Definition upper_char (c : ascii) : ascii :=
  if is_lower c then ascii_of_nat (nat_of_ascii c - 32) else c.

(** [s.upper()] on the ASCII letters; other bytes are kept.  It is
    [str.upper] on every ASCII string. *)
Fixpoint upper (s : string) : string :=
  match s with
  | EmptyString => EmptyString
  | String c s' => String (upper_char c) (upper s')
  end.

(** [s.startswith(p)] *)
Definition startswith (s p : string) : bool := String.prefix p s.

(** [len(s)] in bytes: the number of code points of an ASCII string.  In
    [is_valid] it compares the length of a message with the length of its
    ASCII beginning, which comes out the same in bytes and code points. *)
Definition len (s : string) : Z := Z.of_nat (String.length s).

(** [s[n:]] for [0 <= n] *)
Fixpoint slice_from (n : nat) (s : string) : string :=
  match n, s with
  | O, _ => s
  | S n', String _ s' => slice_from n' s'
  | S _, EmptyString => EmptyString
  end.

Fixpoint find_from (i : Z) (s sub : string) : Z :=
  if String.prefix sub s then i
  else match s with
       | EmptyString => -1
       | String _ s' => find_from (i + 1) s' sub
       end.

(** [s.find(sub)]: the least index at which [sub] occurs, or [-1]. *)
Definition find (s sub : string) : Z := find_from 0 s sub.

Fixpoint all_digits (s : string) : bool :=
  match s with
  | EmptyString => true
  | String c s' => is_digit c && all_digits s'
  end.

(** [s.isdecimal()] for ASCII strings: non-empty and made of the digits 0
    to 9. *)
Definition isdecimal (s : string) : bool :=
  match s with
  | EmptyString => false
  | _ => all_digits s
  end.

(** Truth value of a string: [if s:] *)
Definition truthy (s : string) : bool :=
  match s with EmptyString => false | _ => true end.

Fixpoint lstrip (l : list ascii) : list ascii :=
  match l with
  | c :: l' => if is_space c then lstrip l' else l
  | [] => []
  end.

Definition strip (l : list ascii) : list ascii :=
  rev (lstrip (rev (lstrip l))).

Definition digit_val (c : ascii) : Z := Z.of_nat (nat_of_ascii c - 48).

(** Digits of a decimal literal; one underscore may separate two digits. *)
Fixpoint digits (acc : Z) (after_digit : bool) (l : list ascii) : option Z :=
  match l with
  | [] => if after_digit then Some acc else None
  | c :: l' =>
      if is_digit c then digits (10 * acc + digit_val c) true l'
      else if Ascii.eqb c "_"%char && after_digit then digits acc false l'
      else None
  end.

(** [int(s)] for an ASCII string: surrounding blanks, an optional sign,
    decimal digits.  [None] stands for the [ValueError] of a string that
    is not a literal. *)
Definition int (s : string) : option Z :=
  match strip (String.list_ascii_of_string s) with
  | c :: l =>
      if Ascii.eqb c "-"%char then Z.opp <$> digits 0 false l
      else if Ascii.eqb c "+"%char then digits 0 false l
      else digits 0 false (c :: l)
  | [] => None
  end.

(** [l.remove(x)]: drops the first occurrence.  Python raises when there
    is none; the one call site tests membership first. *)
Fixpoint list_remove (x : string) (l : list string) : list string :=
  match l with
  | [] => []
  | y :: l' => if String.eqb y x then l' else y :: list_remove x l'
  end.

(** [x in l] on a list of strings *)
Definition contains (l : list string) (x : string) : bool :=
  existsb (String.eqb x) l.

End Py.

(** ** Data *)

(** A player entry of the feed; only its ["name"] is read. *)
Record Player := { player_name : string }.

(** One element of ["grids"]: [{"grid": ..., "players": [...]}]. *)
Record Grid := { grid : string; players : list Player }.

(** A chat channel, the chat server a message came from, and a message. *)
Record Channel := { channel_id : N; name : string }.

Record Message := { content : string; channel : Channel; server : N }.

(** The dictionary built for each server at lines 327-332. *)
Module ServerInfo.
Record t := {
  server_name : string;
  player_count : Z;
  player_sbn_count : Z;
  blacklist_players : list Player
}.
End ServerInfo.

(** Values that are formatted into a message or stored in a field whose
    type the code does not fix. *)
Inductive PyVal :=
| PyInt (z : Z)
| PyStr (s : string)
| PyStrList (l : list string)
| PyPlayers (l : list Player).

Inductive Msg :=
| Text (s : string)
| Format (template : string) (args : list PyVal).

Inductive Exn :=
| TypeError
| ValueError
| NotImplementedError
| RequestError
| DecodeError
| OverflowError.

Inductive Result (A : Type) :=
| Ok (a : A)
| Raise (e : Exn).
Arguments Ok {A} a.
Arguments Raise {A} e.

(** The fields of the configuration object that [command.py] reads and
    writes.  [watch_interval] is a [PyVal]: two commands assign it, one an
    [int] and one a [str]. *)
Record ASWDConfig := {
  url : string;
  is_watch_started : bool;
  watch_world : string;
  watch_interval : PyVal;
  player_sbn_count : Z;
  blacklist : list string;
  last_servers_info : gmap string ServerInfo.t;
  blacklist_notice_server_names : list string
}.

Definition set_is_watch_started (b : bool) (c : ASWDConfig) : ASWDConfig :=
  {| url := url c; is_watch_started := b; watch_world := watch_world c;
     watch_interval := watch_interval c;
     player_sbn_count := player_sbn_count c; blacklist := blacklist c;
     last_servers_info := last_servers_info c;
     blacklist_notice_server_names := blacklist_notice_server_names c |}.

Definition set_watch_interval (v : PyVal) (c : ASWDConfig) : ASWDConfig :=
  {| url := url c; is_watch_started := is_watch_started c;
     watch_world := watch_world c; watch_interval := v;
     player_sbn_count := player_sbn_count c; blacklist := blacklist c;
     last_servers_info := last_servers_info c;
     blacklist_notice_server_names := blacklist_notice_server_names c |}.

Definition set_player_sbn_count (n : Z) (c : ASWDConfig) : ASWDConfig :=
  {| url := url c; is_watch_started := is_watch_started c;
     watch_world := watch_world c; watch_interval := watch_interval c;
     player_sbn_count := n; blacklist := blacklist c;
     last_servers_info := last_servers_info c;
     blacklist_notice_server_names := blacklist_notice_server_names c |}.

Definition set_last_servers_info (m : gmap string ServerInfo.t)
    (c : ASWDConfig) : ASWDConfig :=
  {| url := url c; is_watch_started := is_watch_started c;
     watch_world := watch_world c; watch_interval := watch_interval c;
     player_sbn_count := player_sbn_count c; blacklist := blacklist c;
     last_servers_info := m;
     blacklist_notice_server_names := blacklist_notice_server_names c |}.

Definition set_blacklist_notice_server_names (l : list string)
    (c : ASWDConfig) : ASWDConfig :=
  {| url := url c; is_watch_started := is_watch_started c;
     watch_world := watch_world c; watch_interval := watch_interval c;
     player_sbn_count := player_sbn_count c; blacklist := blacklist c;
     last_servers_info := last_servers_info c;
     blacklist_notice_server_names := l |}.

(** What the collaborators answer.  [requests_get u] is
    [requests.get(u).text]; [jsons_loads body] is the list under ["grids"]
    of the decoded body, and [Raise] when the body does not decode or has
    another shape (the decoder or a subscript of lines 303-309 raises, before
    any field of the configuration is written).  [add_blacklist] and
    [del_blacklist] are the methods of the configuration object.

    The Python built-ins applied to a command argument are collaborators
    too: [str_upper s] is [s.upper()], [str_len s] is [len(s)],
    [str_isdecimal s] is [s.isdecimal()], and [str_int s] is [int(s)] with
    [None] for its [ValueError].  [sleep_overflows n] tells whether
    [asyncio.sleep(n)] raises [OverflowError] for the integer delay [n]
    (the delay cannot be converted to a float). *)
Record Env := {
  requests_get : string -> Result string;
  jsons_loads : string -> Result (list Grid);
  get_channels : list Channel;
  timestr : string;
  SERVER_NAMES : list string;
  exists_channel : N -> string -> option Channel;
  add_blacklist : ASWDConfig -> string -> ASWDConfig;
  del_blacklist : ASWDConfig -> string -> ASWDConfig;
  str_upper : string -> string;
  str_len : string -> Z;
  str_isdecimal : string -> bool;
  str_int : string -> option Z;
  sleep_overflows : Z -> bool
}.

(** Effects on the outside, in the order they happen. *)
Inductive Event :=
| Send (ch : Channel) (m : Msg)
| Sleep (seconds : Z)
| Traceback (e : Exn)
| Get (u : string)
| CreateChannel (srv : N) (nm : string)
| DeleteChannel (ch : Channel).

(** ** The monad of a method body: configuration state, event log,
    exceptions.  State and log survive a raise, as mutations of the shared
    configuration object do. *)

Definition M (A : Type) : Type :=
  ASWDConfig -> Result A * ASWDConfig * list Event.

Definition ret {A} (a : A) : M A := fun c => (Ok a, c, []).

Definition bind {A B} (m : M A) (k : A -> M B) : M B :=
  fun c =>
    match m c with
    | (Ok a, c1, t1) => let '(r, c2, t2) := k a c1 in (r, c2, t1 ++ t2)
    | (Raise e, c1, t1) => (Raise e, c1, t1)
    end.

Notation "x <- m ;; k" := (bind m (fun x => k))
  (at level 100, m at next level, right associativity).
Notation "m ;; k" := (bind m (fun _ => k))
  (at level 100, right associativity).

Definition raise {A} (e : Exn) : M A := fun c => (Raise e, c, []).

Definition lift {A} (r : Result A) : M A := fun c => (r, c, []).

Definition config : M ASWDConfig := fun c => (Ok c, c, []).

Definition modify (f : ASWDConfig -> ASWDConfig) : M unit :=
  fun c => (Ok tt, f c, []).

Definition emit (e : Event) : M unit := fun c => (Ok tt, c, [e]).

(** [try: m  except Exception as e: h e] *)
Definition try_except {A} (m : M A) (h : Exn -> M A) : M A :=
  fun c =>
    match m c with
    | (Raise e, c1, t1) => let '(r, c2, t2) := h e c1 in (r, c2, t1 ++ t2)
    | done => done
    end.

Definition when (b : bool) (m : M unit) : M unit := if b then m else ret tt.

Fixpoint for_each {A} (l : list A) (body : A -> M unit) : M unit :=
  match l with
  | [] => ret tt
  | x :: l' => body x ;; for_each l' body
  end.

(** [Command.send_message] *)
Definition send_message (ch : Channel) (m : Msg) : M unit := emit (Send ch m).

(** [asyncio.sleep(self.config.watch_interval)]: a delay that is not a
    number raises [TypeError], an integer that cannot be converted to a
    float raises [OverflowError]. *)
Definition sleep_watch_interval (env : Env) : M unit :=
  c <- config ;;
  match watch_interval c with
  | PyInt n =>
      if sleep_overflows env n then raise OverflowError else emit (Sleep n)
  | _ => raise TypeError
  end.

(** [with open(consts.LOG_FILE, 'a') as f: traceback.print_exc(file=f)] *)
Definition log_traceback (e : Exn) : M unit := emit (Traceback e).

(** ** The watch loop of [StartCommand.execute] *)

Definition msg_started : Msg := Text "監視開始.".
Definition msg_empty_json : Msg := Text "【エラー】jsonが空. 再度実行.".
Definition msg_connect_failed : Msg :=
  Text "【エラー】WebService接続失敗. サーバダウンかも. 再度実行.".
Definition msg_continue : Msg :=
  Text "【エラー】処理続行. 複数回発生したら/stopして.".
Definition msg_no_data (timestr key : string) : Msg :=
  Format "{}　{}　データ取得エラー." [PyStr timestr; PyStr key].
Definition msg_report (timestr : string) (i : ServerInfo.t) : Msg :=
  Format "{}　{}　人数:{}　BL対象者:{}"
    [PyStr timestr; PyStr (ServerInfo.server_name i);
     PyInt (ServerInfo.player_count i);
     PyPlayers (ServerInfo.blacklist_players i)].
Definition msg_surge (threshold delta : Z) : Msg :=
  Format "@everyone サーバ人数急増. 閾値:{} 増加人数:{}"
    [PyInt threshold; PyInt delta].
Definition msg_blacklist_enter (l : list Player) : Msg :=
  Format "@everyone ブラックリスト対象侵入. 対象:{}" [PyPlayers l].
Definition msg_blacklist_clear : Msg :=
  Text "ブラックリスト対象はいなくなりました.".

(** Lines 320-325 as a function of the list the outer loop ranges over:
    for each entry, each player whose upper-cased name contains the
    upper-cased entry is appended. *)
Definition match_blacklist (entries : list string) (players : list Player)
    (blacklist_players : list Player) : list Player :=
  foldl (fun acc bl_player =>
           foldl (fun acc player =>
                    if Py.find (Py.upper (player_name player))
                               (Py.upper bl_player) =? -1
                    then acc else acc ++ [player])
                 acc players)
        blacklist_players entries.

(** Lines 308-332, one pass of the loop over ["grids"].  The outer loop of
    line 320 ranges over the local list bound on line 319 ([iterated]: that
    list, of length 0 when the loop starts); [self.config.blacklist] is not
    read. *)
Definition collect_grid (last : gmap string ServerInfo.t)
    (servers_info : gmap string ServerInfo.t) (g : Grid)
    : gmap string ServerInfo.t :=
  let server_name := grid g in
  let player_count := Z.of_nat (length (players g)) in
  let last_server_info :=
    if negb (size last =? 0)%nat && bool_decide (is_Some (last !! server_name))
    then last !! server_name else None in
  (* line 316: a stored count is the [len] of line 309, never [None] *)
  let player_sbn_count :=
    match last_server_info with
    | Some i => player_count - ServerInfo.player_count i
    | None => 0
    end in
  let blacklist_players : list Player := [] in
  let iterated : list string := [] in
  let blacklist_players :=
    match_blacklist iterated (players g) blacklist_players in
  <[server_name :=
      {| ServerInfo.server_name := server_name;
         ServerInfo.player_count := player_count;
         ServerInfo.player_sbn_count := player_sbn_count;
         ServerInfo.blacklist_players := blacklist_players |}]> servers_info.

(** Lines 306-332. *)
Definition collect (last : gmap string ServerInfo.t) (grids : list Grid)
    : gmap string ServerInfo.t :=
  foldl (collect_grid last) ∅ grids.

(** Lines 357-360: the surge alert. *)
Definition notify_surge (tgt_channel : Channel) (i : ServerInfo.t) : M unit :=
  c <- config ;;
  when (player_sbn_count c <=? ServerInfo.player_sbn_count i)
    (send_message tgt_channel
       (msg_surge (player_sbn_count c) (ServerInfo.player_sbn_count i))).

(** Lines 362-367: the alert for a blacklisted player on the server. *)
Definition notify_blacklist_enter (tgt_channel : Channel) (i : ServerInfo.t)
    : M unit :=
  c <- config ;;
  when (0 <? Z.of_nat (length (ServerInfo.blacklist_players i)))
    (when (negb (Py.contains (blacklist_notice_server_names c)
                   (ServerInfo.server_name i)))
       (send_message tgt_channel
          (msg_blacklist_enter (ServerInfo.blacklist_players i)) ;;
        modify (fun c => set_blacklist_notice_server_names
                  (blacklist_notice_server_names c ++
                     [ServerInfo.server_name i]) c))).

(** Lines 369-373: the notice that no blacklisted player is left. *)
Definition notify_blacklist_clear (tgt_channel : Channel) (i : ServerInfo.t)
    : M unit :=
  c <- config ;;
  when ((Z.of_nat (length (ServerInfo.blacklist_players i)) =? 0)
        && Py.contains (blacklist_notice_server_names c)
             (ServerInfo.server_name i))
    (send_message tgt_channel msg_blacklist_clear ;;
     modify (fun c => set_blacklist_notice_server_names
               (Py.list_remove (ServerInfo.server_name i)
                  (blacklist_notice_server_names c)) c)).

(** Lines 340-373: one destination channel. *)
Definition notify_channel (timestr : string)
    (servers_info : gmap string ServerInfo.t) (tgt_channel : Channel)
    : M unit :=
  match servers_info !! Py.upper (name tgt_channel) with
  | None =>
      send_message tgt_channel (msg_no_data timestr (Py.upper (name tgt_channel)))
  | Some server_info =>
      send_message tgt_channel (msg_report timestr server_info) ;;
      notify_surge tgt_channel server_info ;;
      notify_blacklist_enter tgt_channel server_info ;;
      notify_blacklist_clear tgt_channel server_info
  end.

(** Lines 302-376: decode, collect, notify, keep the new server data. *)
Definition process (env : Env) (atlas_grids_json : string) : M unit :=
  grids <- lift (jsons_loads env atlas_grids_json) ;;
  c <- config ;;
  let servers_info := collect (last_servers_info c) grids in
  for_each (get_channels env) (notify_channel (timestr env) servers_info) ;;
  modify (set_last_servers_info servers_info).

(** Lines 283-300: the fetch.  [None] is the [continue] of lines 292 and
    300, [Some body] falls through to line 302. *)
Definition fetch (env : Env) (message : Message) : M (option string) :=
  try_except
    (c <- config ;;
     emit (Get (url c)) ;;
     atlas_grids_json <- lift (requests_get env (url c)) ;;
     if Py.truthy atlas_grids_json then ret (Some atlas_grids_json)
     else
       send_message (channel message) msg_empty_json ;;
       sleep_watch_interval env ;;
       ret None)
    (fun e =>
       log_traceback e ;;
       send_message (channel message) msg_connect_failed ;;
       sleep_watch_interval env ;;
       ret None).

(** Lines 282-384: the body of [while self.config.is_watch_started].  The
    boolean is [true] when control reaches the sleep of line 384 and
    [false] on [continue]. *)
Definition iteration (env : Env) (message : Message) : M unit :=
  reaches_sleep <-
    try_except
      (fetched <- fetch env message ;;
       match fetched with
       | None => ret false
       | Some atlas_grids_json => process env atlas_grids_json ;; ret true
       end)
      (fun e =>
         log_traceback e ;;
         send_message (channel message) msg_continue ;;
         ret true) ;;
  when reaches_sleep (sleep_watch_interval env).

(** Lines 277-280: what [StartCommand.execute] does before its loop. *)
Definition StartCommand_enter (message : Message) : M unit :=
  send_message (channel message) msg_started ;;
  modify (set_is_watch_started true).

(** ** The command classes *)

Inductive Command :=
| StartCommand
| StopCommand
| AddBlackListCommand
| DelBlackListCommand
| ListBlackListCommand
| AddServerCommand
| DelServerCommand
| StatusCommand
| SetWatchWorldCommand
| SetWatchIntervalCommand
| SetPlayerSbnCountCommand
| FuckYeahCommand
| HelpCommand.

(** The arguments each constructor passes to [Command.__init__]. *)
Definition cmd (c : Command) : string :=
  match c with
  | StartCommand => "/start"
  | StopCommand => "/stop"
  | AddBlackListCommand => "/add bl"
  | DelBlackListCommand => "/dl bl"
  | ListBlackListCommand => "/list bl"
  | AddServerCommand => "/add server"
  | DelServerCommand => "/del server"
  | StatusCommand => "/status"
  | SetWatchWorldCommand => "/set world"
  | SetWatchIntervalCommand => "/set interval"
  | SetPlayerSbnCountCommand => "/set player_count"
  | FuckYeahCommand => "/fuck"
  | HelpCommand => "/?"
  end.

Definition has_args (c : Command) : bool :=
  match c with
  | StartCommand | StopCommand | ListBlackListCommand | StatusCommand
  | HelpCommand => false
  | _ => true
  end.

Definition usage (c : Command) : string :=
  match c with
  | StartCommand => "/start : 監視を開始します."
  | StopCommand => "/stop : 監視を終了します."
  | AddBlackListCommand =>
      "/add bl [プレイヤー名] : ブラックリストにプレイヤーを追加します."
  | DelBlackListCommand =>
      "/del bl [プレイヤー名] : ブラックリストからプレイヤーを削除します."
  | ListBlackListCommand => "/list bl : ブラックリストの一覧を表示します."
  | AddServerCommand =>
      "/add server [サーバー名(A1-O15)] : Discordにサーバー監視報告用のチャンネルを追加します."
  | DelServerCommand =>
      "/del server [サーバー名(A1-O15)] : Discordのサーバー監視報告用のチャンネルを削除します."
  | StatusCommand => "/status : 設定値など現在の状態を表示します."
  | SetWatchWorldCommand => "/set world [NA or EU] : 監視ワールドを設定します."
  | SetWatchIntervalCommand => "/set interval : 監視間隔(秒)を設定します."
  | SetPlayerSbnCountCommand =>
      "/set player_count : 通知対象プレイヤー増加数を設定します."
  | FuckYeahCommand => "/fuck xxx : Fuck YEAH !!"
  | HelpCommand =>
      "/? : ヘルプを表示します. /start /? のように入力するとコマンドのヘルプを表示します."
  end.

(** [Command.is_call] *)
Definition is_call (c : Command) (msg : string) : bool :=
  Py.startswith msg (cmd c).

(** [Command.is_cmd_help]: [self.cmd + " /?" == msg].  The argument is
    whatever the caller passes; a [str] is never equal to a message
    object. *)
Definition is_cmd_help (c : Command) (msg : string + Message) : bool :=
  match msg with
  | inl s => String.eqb (cmd c +:+ " /?") s
  | inr _ => false
  end.

(** [Command.is_valid] *)
Definition is_valid (c : Command) (message : Message) : bool :=
  if has_args c then
    Py.startswith (content message) (cmd c +:+ " ")
    && (Py.len (cmd c) + 1 <? Py.len (content message))
  else String.eqb (content message) (cmd c).

Definition msg_already_watching : string := "監視継続します.".
Definition msg_bad_player_name : string :=
  "プレイヤー名を正しく入力してください.".
Definition msg_bad_server_name : string :=
  "サーバー名にA1～O15を設定してください.".
Definition msg_bad_world : string := "NA か EU を設定してください.".
Definition msg_bad_interval : string := "監視間隔に数値を設定してください.".
Definition msg_bad_player_count : string :=
  "プレイヤー増加数を数値で設定してください.".
Definition msg_invalid : string := "コマンドが正しくありません.".

(** [valid_custom] of each class; [None] where the method returns nothing.
    [cfg] is [self.config] at the time of the call. *)
Definition valid_custom (env : Env) (cfg : ASWDConfig) (c : Command)
    (message : Message) (args : string) : option string :=
  match c with
  | StartCommand =>
      if is_watch_started cfg then Some msg_already_watching else None
  | AddBlackListCommand | DelBlackListCommand =>
      if negb (Py.truthy args) then Some msg_bad_player_name else None
  | AddServerCommand =>
      if negb (Py.truthy args)
         || negb (Py.contains (SERVER_NAMES env) (str_upper env args))
      then Some msg_bad_server_name
      else match exists_channel env (server message) args with
           | Some _ => Some "対象サーバは既に監視対象です."
           | None => None
           end
  | DelServerCommand =>
      if negb (Py.truthy args) || negb (str_len env args =? 2)
         || negb (Py.contains (SERVER_NAMES env) (str_upper env args))
      then Some msg_bad_server_name
      else match exists_channel env (server message) args with
           | Some _ => None
           | None => Some "対象サーバは監視対象ではありません."
           end
  | SetWatchWorldCommand =>
      if negb (Py.truthy args) then Some msg_bad_world
      else if negb (String.eqb args "NA") && negb (String.eqb args "EU")
      then Some msg_bad_world
      else None
  | SetWatchIntervalCommand =>
      if negb (Py.truthy args) || negb (str_isdecimal env args)
      then Some msg_bad_interval else None
  | SetPlayerSbnCountCommand =>
      if negb (Py.truthy args) then Some msg_bad_player_count else None
  | _ => None
  end.

Definition coercion_30 : Msg :=
  Text "指定した数値が30秒未満のため、30秒を設定します.".
Definition coercion_3 : Msg :=
  Text "指定した数値が3人未満のため、3人を設定します.".

(** [int_val = int(args)] *)
Definition int_of_args (env : Env) (args : string) : M Z :=
  match str_int env args with
  | Some z => ret z
  | None => raise ValueError
  end.

(** [execute_cmd] of each class; the classes that do not define it inherit
    the one of [Command], which raises. *)
Definition execute_cmd (env : Env) (c : Command) (message : Message)
    (args : string) : M bool :=
  match c with
  | StartCommand | HelpCommand => raise NotImplementedError
  | StopCommand =>
      modify (set_is_watch_started false) ;;
      send_message (channel message) (Text "監視終了.") ;;
      ret true
  | AddBlackListCommand =>
      modify (fun cfg => add_blacklist env cfg args) ;;
      send_message (channel message) (Text "ブラックリストに追加しました.") ;;
      ret true
  | DelBlackListCommand =>
      modify (fun cfg => del_blacklist env cfg args) ;;
      send_message (channel message) (Text "ブラックリストから削除しました.") ;;
      ret true
  | ListBlackListCommand =>
      cfg <- config ;;
      send_message (channel message)
        (Format "ブラックリスト: {}" [PyStrList (blacklist cfg)]) ;;
      ret true
  | AddServerCommand =>
      emit (CreateChannel (server message) (str_upper env args)) ;;
      send_message (channel message)
        (Format "{}チャンネル追加. 監視情報はそこに出力します."
           [PyStr (str_upper env args)]) ;;
      ret true
  | DelServerCommand =>
      match exists_channel env (server message) args with
      | Some ch => emit (DeleteChannel ch)
      | None => raise TypeError
      end ;;
      send_message (channel message)
        (Format "{}チャンネル削除." [PyStr (str_upper env args)]) ;;
      ret true
  | StatusCommand =>
      cfg <- config ;;
      let started :=
        if is_watch_started cfg then "監視中" else "監視していません" in
      send_message (channel message)
        (Format
           ("監視状態:{}" +:+ Py.nl +:+ "監視ワールド:{}" +:+ Py.nl
            +:+ "監視間隔(秒):{}" +:+ Py.nl +:+ "通知対象プレイヤー増加数:{}"
            +:+ Py.nl +:+ "ブラックリスト:{}" +:+ Py.nl
            +:+ "ブラックリスト侵入中サーバ:{}")
           [PyStr started; PyStr (watch_world cfg); watch_interval cfg;
            PyInt (player_sbn_count cfg); PyStrList (blacklist cfg);
            PyStrList (blacklist_notice_server_names cfg)]) ;;
      ret true
  | SetWatchWorldCommand =>
      modify (set_watch_interval (PyStr args)) ;;
      send_message (channel message)
        (Format "監視ワールドを{}秒に設定しました." [PyStr args]) ;;
      ret true
  | SetWatchIntervalCommand =>
      int_val <- int_of_args env args ;;
      int_val <-
        (if int_val <? 30 then
           send_message (channel message) coercion_30 ;;
           ret 30
         else ret int_val) ;;
      modify (set_watch_interval (PyInt int_val)) ;;
      send_message (channel message)
        (Format "監視間隔を{}秒に設定しました." [PyInt int_val]) ;;
      ret true
  | SetPlayerSbnCountCommand =>
      int_val <- int_of_args env args ;;
      int_val <-
        (if int_val <? 3 then
           send_message (channel message) coercion_3 ;;
           ret 3
         else ret int_val) ;;
      modify (set_player_sbn_count int_val) ;;
      send_message (channel message)
        (Format "通知対象プレイヤー増加数を{}人に設定しました."
           [PyInt int_val]) ;;
      ret true
  | FuckYeahCommand =>
      send_message (channel message) (Text "Fuck YEAH !!") ;;
      send_message (channel message)
        (Text "https://www.youtube.com/watch?v=IhnUgAaea4M&feature=youtu.be&t=8") ;;
      ret true
  end.

(** [Command.execute], lines 104-131.  The test of line 111 fails for any
    message object.  Line 114 hands the message object itself to
    [is_cmd_help].  The method returns [False] where it gives up and
    nothing ([None]) after [execute_cmd]. *)
Definition Command_execute (env : Env) (c : Command) (message : Message)
    : M (option bool) :=
  if is_cmd_help c (inr message) then
    send_message (channel message) (Text (usage c)) ;;
    ret (Some false)
  else if negb (is_valid c message) then
    send_message (channel message)
      (Text (msg_invalid +:+ Py.nl +:+ usage c)) ;;
    ret (Some false)
  else
    let args :=
      Py.slice_from (String.length (cmd c) + 1) (content message) in
    cfg <- config ;;
    match valid_custom env cfg c message args with
    | Some valid_msg =>
        if Py.truthy valid_msg then
          send_message (channel message)
            (Text (valid_msg +:+ Py.nl +:+ usage c)) ;;
          ret (Some false)
        else execute_cmd env c message args ;; ret None
    | None => execute_cmd env c message args ;; ret None
    end.

(** How a call of [execute] ends for its caller: with a value, or not at
    all because the coroutine has reached the loop of line 281. *)
Inductive Outcome :=
| Returns (v : option bool)
| Loops (message : Message).

(** [cmd.execute(message)] resolved by class: [StartCommand] overrides
    [execute] (lines 276-385), [HelpCommand] overrides it with a method of
    two parameters, which the one-argument call cannot bind; the other
    classes inherit [Command.execute]. *)
Definition execute (env : Env) (c : Command) (message : Message)
    : M Outcome :=
  match c with
  | StartCommand => StartCommand_enter message ;; ret (Loops message)
  | HelpCommand => raise TypeError
  | _ => v <- Command_execute env c message ;; ret (Returns v)
  end.

(** [CommandManager.__init__] *)
Definition cmd_list : list Command :=
  [StartCommand; StopCommand; AddBlackListCommand; DelBlackListCommand;
   ListBlackListCommand; AddServerCommand; DelServerCommand; StatusCommand;
   SetWatchWorldCommand; SetWatchIntervalCommand; SetPlayerSbnCountCommand;
   FuckYeahCommand; HelpCommand].

(** [CommandManager.execute] *)
Definition CommandManager_execute (env : Env) (message : Message)
    : M Outcome :=
  if negb (Py.startswith (content message) "/") then ret (Returns (Some false))
  else
    match List.find (fun c => is_call c (content message)) cmd_list with
    | None =>
        send_message (channel message)
          (Text (msg_invalid +:+ Py.nl +:+ usage HelpCommand)) ;;
        ret (Returns (Some false))
    | Some call_cmd => execute env call_cmd message
    end.

(** ** The bot as a transition system

    The chat client runs every handler on one event loop.  A state holds
    the shared configuration object, the [StartCommand.execute] coroutines
    that are inside their loop (each with the message that started it), and
    the events so far.  A coroutine that raises, or returns, leaves the
    list. *)

Record System := {
  cfg : ASWDConfig;
  loops : list Message;
  events : list Event
}.

(** One evaluation of the loop condition of line 281 followed by the loop
    body; [true] when the coroutine is still in its loop afterwards and
    [false] when it has returned through line 385. *)
Definition resume (env : Env) (message : Message) : M bool :=
  c <- config ;;
  if is_watch_started c then iteration env message ;; ret true
  else ret false.

(** An incoming chat message is handed to [CommandManager.execute]; a
    coroutine that reaches the loop runs its first pass at once. *)
Definition on_message (env : Env) (message : Message) (s : System) : System :=
  let '(r, c, t) :=
    (o <- CommandManager_execute env message ;;
     match o with
     | Returns _ => ret false
     | Loops m => resume env m
     end) (cfg s) in
  {| cfg := c;
     loops := match r with
              | Ok true => loops s ++ [message]
              | _ => loops s
              end;
     events := events s ++ t |}.

(** The [i]-th looping coroutine wakes from its sleep. *)
Definition on_wake (env : Env) (i : nat) (s : System) : System :=
  match loops s !! i with
  | None => s
  | Some message =>
      let '(r, c, t) := resume env message (cfg s) in
      {| cfg := c;
         loops := match r with
                  | Ok true => loops s
                  | _ => delete i (loops s)
                  end;
         events := events s ++ t |}
  end.

(** ** Reading a run *)

Definition result {A} (o : Result A * ASWDConfig * list Event) : Result A :=
  o.1.1.
Definition final {A} (o : Result A * ASWDConfig * list Event) : ASWDConfig :=
  o.1.2.
Definition trace {A} (o : Result A * ASWDConfig * list Event) : list Event :=
  o.2.

Definition has_template (tpl : string) (e : Event) : bool :=
  match e with
  | Send _ (Format t _) => String.eqb t tpl
  | _ => false
  end.

(** The three alerts of the notification policy, by what is sent. *)
Definition is_surge_alert (e : Event) : bool :=
  has_template "@everyone サーバ人数急増. 閾値:{} 増加人数:{}" e.

Definition is_blacklist_alert (e : Event) : bool :=
  has_template "@everyone ブラックリスト対象侵入. 対象:{}" e.

Definition is_blacklist_clear (e : Event) : bool :=
  match e with
  | Send _ (Text s) => String.eqb s "ブラックリスト対象はいなくなりました."
  | _ => false
  end.

(** The entry a pass over [g] stores, written without the tests that do not
    change it (shown equal to the code's in [collect_grid_insert]). *)
Definition entry_of (last : gmap string ServerInfo.t) (g : Grid)
    : ServerInfo.t :=
  {| ServerInfo.server_name := grid g;
     ServerInfo.player_count := Z.of_nat (length (players g));
     ServerInfo.player_sbn_count :=
       match last !! grid g with
       | Some i => Z.of_nat (length (players g)) - ServerInfo.player_count i
       | None => 0
       end;
     ServerInfo.blacklist_players := [] |}.

(** The two fields that steer the loop are the same in [c'] as in [c]. *)
Definition same_settings (c c' : ASWDConfig) : Prop :=
  watch_interval c' = watch_interval c
  ∧ is_watch_started c' = is_watch_started c.

(** How many events of a run are of a given kind. *)
Definition times (kind : Event → bool) (t : list Event) : nat :=
  length (filter (λ e, kind e = true) t).

(** Successive processings of servers by the notification policy, over any
    number of passes: each has its time stamp, the data collected in its
    pass, and its destination channel. *)
Record Step := {
  step_time : string;
  step_data : gmap string ServerInfo.t;
  step_channel : Channel
}.

(** The server a step processes, when its channel names one. *)
Definition step_server (st : Step) : option ServerInfo.t :=
  step_data st !! Py.upper (name (step_channel st)).

Definition run_step (st : Step) : M unit :=
  notify_channel (step_time st) (step_data st) (step_channel st).

(** The events of each step, and the configuration at the end. *)
Fixpoint run_steps (steps : list Step) (c : ASWDConfig)
    : list (Step * list Event) * ASWDConfig :=
  match steps with
  | [] => ([], c)
  | st :: rest =>
      let '(later, c') := run_steps rest (final (run_step st c)) in
      ((st, trace (run_step st c)) :: later, c')
  end.

(** The blacklist test as the specification words it: the entries are the
    configured blacklist. *)
Definition spec_blacklist_matches (cfg : ASWDConfig) (g : Grid) : list Player :=
  match_blacklist (blacklist cfg) (players g) [].

(** ** A small world for the examples *)

Definition general : Channel := {| channel_id := 1; name := "general" |}.
Definition a1 : Channel := {| channel_id := 2; name := "a1" |}.

Definition crowd (n : nat) : list Player :=
  repeat {| player_name := "Deckhand" |} n.

Definition evil_doer : Player := {| player_name := "EvilDoer42" |}.

(** Server A1 with fifteen players, one of them [evil_doer]. *)
Definition grid_a1 : Grid :=
  {| grid := "A1"; players := evil_doer :: crowd 14 |}.

Definition feed : list Grid := [grid_a1].

(** What the bot reports for A1 when it has no earlier data. *)
Definition a1_first_report : Msg :=
  Format "{}　{}　人数:{}　BL対象者:{}"
    [PyStr "11/04 07:22"; PyStr "A1"; PyInt 15; PyPlayers []].

(** The least integer delay that [asyncio.sleep] cannot convert to a
    float. *)
Definition float_limit : Z := 2 ^ 1024 - 2 ^ 970.

(** The example worlds read the command arguments with the ASCII instances
    of the built-ins. *)
Definition world (body : Result string) (decoded : Result (list Grid)) : Env :=
  {| requests_get := fun _ => body;
     jsons_loads := fun _ => decoded;
     get_channels := [a1];
     timestr := "11/04 07:22";
     SERVER_NAMES := ["A1"; "A2"];
     exists_channel := fun _ _ => None;
     add_blacklist := fun c _ => c;
     del_blacklist := fun c _ => c;
     str_upper := Py.upper;
     str_len := Py.len;
     str_isdecimal := Py.isdecimal;
     str_int := Py.int;
     sleep_overflows := fun n => float_limit <=? n |}.

Definition world_a1 : Env := world (Ok "{grids}") (Ok feed).

Definition a1_with (n : Z) : ServerInfo.t :=
  {| ServerInfo.server_name := "A1"; ServerInfo.player_count := n;
     ServerInfo.player_sbn_count := 0; ServerInfo.blacklist_players := [] |}.

Definition a1_invaded : ServerInfo.t :=
  {| ServerInfo.server_name := "A1"; ServerInfo.player_count := 15;
     ServerInfo.player_sbn_count := 0;
     ServerInfo.blacklist_players := [evil_doer] |}.

Definition stopped : ASWDConfig :=
  {| url := "http://atlas.example/grids"; is_watch_started := false;
     watch_world := "EU"; watch_interval := PyInt 60; player_sbn_count := 5;
     blacklist := ["eviL"]; last_servers_info := ∅;
     blacklist_notice_server_names := [] |}.

Definition said (text : string) : Message :=
  {| content := text; channel := general; server := 7 |}.

Definition boot : System := {| cfg := stopped; loops := []; events := [] |}.

(** The bot after a first [/start]: one loop, one pass done. *)
Definition watching : System := on_message world_a1 (said "/start") boot.

(** ... and after [/set world NA] was then accepted. *)
Definition watching_world_set : System :=
  on_message world_a1 (said "/set world NA") watching.

(** ** Further readers, for the properties of whole passes and of the
    dispatcher *)

(** The routine report and the data-error notice, by what is sent. *)
Definition is_report (e : Event) : bool :=
  has_template "{}　{}　人数:{}　BL対象者:{}" e.

Definition is_no_data (e : Event) : bool :=
  has_template "{}　{}　データ取得エラー." e.

(** The channel names a server of the collected data (line 340). *)
Definition known (servers_info : gmap string ServerInfo.t) (ch : Channel)
    : bool :=
  bool_decide (is_Some (servers_info !! Py.upper (name ch))).

(** The channel names a server whose delta reaches [threshold]. *)
Definition surging (threshold : Z) (servers_info : gmap string ServerInfo.t)
    (ch : Channel) : bool :=
  match servers_info !! Py.upper (name ch) with
  | Some i => threshold <=? ServerInfo.player_sbn_count i
  | None => false
  end.

(** The last grid of the feed that carries the name [s]. *)
Definition latest_grid (s : string) (grids : list Grid) : option Grid :=
  List.find (λ g, String.eqb (grid g) s) (rev grids).

(** The classes that run [Command.execute] as inherited. *)
Definition inherits_execute (k : Command) : bool :=
  match k with
  | StartCommand | HelpCommand => false
  | _ => true
  end.

(** The classes whose [execute_cmd] assigns no field of the
    configuration. *)
Definition read_only (k : Command) : bool :=
  match k with
  | ListBlackListCommand | AddServerCommand | DelServerCommand
  | StatusCommand | FuckYeahCommand => true
  | _ => false
  end.

Definition from (ch : Channel) (srv : N) (text : string) : Message :=
  {| content := text; channel := ch; server := srv |}.

(** A world in which A10 is a server name and already has its channel. *)
Definition a10 : Channel := {| channel_id := 3; name := "A10" |}.

Definition world_a10 : Env :=
  {| requests_get := fun _ => Ok "{grids}";
     jsons_loads := fun _ => Ok feed;
     get_channels := [a1; a10];
     timestr := "11/04 07:22";
     SERVER_NAMES := ["A1"; "A2"; "A10"];
     exists_channel :=
       fun _ nm => if String.eqb (Py.upper nm) "A10" then Some a10 else None;
     add_blacklist := fun c _ => c;
     del_blacklist := fun c _ => c;
     str_upper := Py.upper;
     str_len := Py.len;
     str_isdecimal := Py.isdecimal;
     str_int := Py.int;
     sleep_overflows := fun n => float_limit <=? n |}.

Definition is_sleep (e : Event) : bool :=
  match e with Sleep _ => true | _ => false end.

(** * Properties *)

(** ** The Python primitives on sample inputs *)

Example upper_mixed : Py.upper "EvilDoer42" = "EVILDOER42".
Proof. reflexivity. Qed.

Example find_hit : Py.find "EVILDOER42" "EVIL" = 0.
Proof. reflexivity. Qed.

Example find_inner : Py.find "xxEVIL" "EVIL" = 2.
Proof. reflexivity. Qed.

Example find_miss : Py.find "GOOD" "EVIL" = -1.
Proof. reflexivity. Qed.

Example int_plain : Py.int "25" = Some 25.
Proof. reflexivity. Qed.

Example int_signed : Py.int " -7 " = Some (-7).
Proof. reflexivity. Qed.

Example int_underscore : Py.int "1_000" = Some 1000.
Proof. reflexivity. Qed.

Example int_word : Py.int "abc" = None.
Proof. reflexivity. Qed.

Example int_trailing_underscore : Py.int "1_" = None.
Proof. reflexivity. Qed.

Lemma upper_idempotent s : Py.upper (Py.upper s) = Py.upper s.
Proof.
  induction s as [|c s IH]; simpl; [reflexivity|].
  f_equal; [|exact IH].
  destruct c as [[] [] [] [] [] [] [] []]; reflexivity.
Qed.

(** ** Collecting the server data (lines 306-332) *)

Section Collect.

Variable last : gmap string ServerInfo.t.

(** The emptiness test of line 312 is redundant next to the membership
    test. *)
Lemma guarded_lookup (s : string) :
  (if negb (size last =? 0)%nat && bool_decide (is_Some (last !! s))
   then last !! s else None) = last !! s.
Proof.
  destruct (last !! s) as [i|] eqn:E.
  - assert (size last ≠ 0%nat) as Hsz.
    { intros Hz. apply map_size_empty_inv in Hz. subst last.
      rewrite lookup_empty in E. discriminate. }
    apply Nat.eqb_neq in Hsz. rewrite Hsz.
    rewrite bool_decide_eq_true_2 by eauto. reflexivity.
  - destruct (negb _ && _); reflexivity.
Qed.

Lemma collect_grid_insert acc g :
  collect_grid last acc g = <[grid g := entry_of last g]> acc.
Proof.
  unfold collect_grid, entry_of. cbv zeta.
  rewrite guarded_lookup. reflexivity.
Qed.

(** Every entry of the collected dictionary was stored by a pass over a
    grid of that name, or was there before. *)
Lemma collect_entries grids : ∀ acc s i,
  foldl (collect_grid last) acc grids !! s = Some i →
  acc !! s = Some i ∨ ∃ g, g ∈ grids ∧ grid g = s ∧ i = entry_of last g.
Proof.
  induction grids as [|g grids IH]; intros acc s i H; simpl in H.
  - left. exact H.
  - apply IH in H as [H | (g' & Hin & Hs & Hi)].
    + rewrite collect_grid_insert in H.
      destruct (decide (grid g = s)) as [Heq | Hne].
      * subst s. rewrite lookup_insert_eq in H. inversion H; subst i.
        right. exists g. split; [left | split; reflexivity].
      * rewrite lookup_insert_ne in H by exact Hne. left. exact H.
    + right. exists g'. split; [right; exact Hin | split; assumption].
Qed.

Lemma collect_from_grid grids s i :
  collect last grids !! s = Some i →
  ∃ g, g ∈ grids ∧ grid g = s ∧ i = entry_of last g.
Proof.
  intros H. apply collect_entries in H as [H | H]; [|exact H].
  rewrite lookup_empty in H. discriminate.
Qed.

End Collect.

(** The population stored for a server does not depend on the previous
    data. *)
Lemma collect_player_count l1 l2 grids : ∀ acc1 acc2 s,
  ServerInfo.player_count <$> acc1 !! s = ServerInfo.player_count <$> acc2 !! s →
  ServerInfo.player_count <$> foldl (collect_grid l1) acc1 grids !! s
  = ServerInfo.player_count <$> foldl (collect_grid l2) acc2 grids !! s.
Proof.
  induction grids as [|g grids IH]; intros acc1 acc2 s H; simpl; [exact H|].
  apply IH. rewrite !collect_grid_insert.
  destruct (decide (grid g = s)) as [Heq | Hne].
  - subst s. rewrite !lookup_insert_eq. reflexivity.
  - rewrite !lookup_insert_ne by exact Hne. exact H.
Qed.

(** What the claim says of an entry, for every entry of the collected
    data. *)
Lemma population_delta_entries (last : gmap string ServerInfo.t)
    (grids : list Grid) (s : string) (i : ServerInfo.t) :
  collect last grids !! s = Some i →
  (∃ g, g ∈ grids ∧ grid g = s)
  ∧ (last !! s = None → ServerInfo.player_sbn_count i = 0)
  ∧ (∀ p, last !! s = Some p →
       ServerInfo.player_sbn_count i
       = ServerInfo.player_count i - ServerInfo.player_count p)
  ∧ (∀ s' i', collect (collect last grids) grids !! s' = Some i' →
       ServerInfo.player_sbn_count i' = 0).
Proof.
  intros H.
  destruct (collect_from_grid _ _ _ _ H) as (g & Hin & Hs & Hi).
  split; [exists g; split; assumption|].
  split; [intros E; subst i s; simpl; rewrite E; reflexivity|].
  split.
  - intros p E. subst i s. simpl. rewrite E. reflexivity.
  - intros s' i' H'.
    pose proof (collect_player_count (collect last grids) last grids ∅ ∅ s'
                  eq_refl) as Hpc.
    fold (collect (collect last grids) grids) in Hpc.
    fold (collect last grids) in Hpc.
    destruct (collect_from_grid _ _ _ _ H') as (g' & _ & Hs' & Hi').
    rewrite H' in Hpc. simpl in Hpc.
    destruct (collect last grids !! s') as [p|] eqn:E; [|discriminate].
    simpl in Hpc. inversion Hpc as [Hcount].
    subst i' s'. simpl in *. rewrite E. lia.
Qed.

(** The collected data, looked up by server name: the entry of the last
    grid of that name. *)
Lemma collect_latest (last : gmap string ServerInfo.t) (grids : list Grid)
    (s : string) :
  collect last grids !! s = entry_of last <$> latest_grid s grids.
Proof.
  induction grids as [|g grids IH] using rev_ind; [reflexivity|].
  unfold collect, latest_grid in *. rewrite foldl_app, rev_app_distr.
  simpl. rewrite collect_grid_insert.
  destruct (String.eqb (grid g) s) eqn:E.
  - apply String.eqb_eq in E. subst s. apply lookup_insert_eq.
  - apply String.eqb_neq in E. rewrite lookup_insert_ne by exact E.
    exact IH.
Qed.

Lemma latest_grid_found (g0 : Grid) (grids : list Grid) :
  g0 ∈ grids →
  ∃ g, latest_grid (grid g0) grids = Some g ∧ g ∈ grids ∧ grid g = grid g0.
Proof.
  intros Hin. unfold latest_grid.
  destruct (List.find _ (rev grids)) as [g|] eqn:E.
  - apply List.find_some in E as [Hg Heq]. exists g.
    split; [reflexivity|]. split.
    + apply list_elem_of_In, in_rev. exact Hg.
    + apply String.eqb_eq. exact Heq.
  - exfalso.
    pose proof (List.find_none _ _ E g0) as Hno. cbv beta in Hno.
    rewrite String.eqb_refl in Hno.
    assert (true = false) by
      (apply Hno; rewrite <- in_rev; apply list_elem_of_In; exact Hin).
    discriminate.
Qed.

(** C5. For every previous server data [last], every feed [grids] and every
    server of the feed (the name of a grid [g0] of [grids]): the collected
    data has an entry for that server, with the player count of the last
    grid of that name; its population delta is 0 when [last] is empty or
    has no entry for the server, and otherwise the current population
    minus the previous one (a difference in [Z], so it may be negative);
    and collecting the same feed again, against the data just collected,
    gives the server the same population and delta 0.  Conversely every
    entry of the collected data belongs to a server of the feed and has
    its delta by the same rule, and after the second collection every
    entry has delta 0. *)
Theorem population_delta (last : gmap string ServerInfo.t)
    (grids : list Grid) (g0 : Grid) :
  g0 ∈ grids →
  (∃ g i,
     latest_grid (grid g0) grids = Some g
     ∧ collect last grids !! grid g0 = Some i
     ∧ ServerInfo.player_count i = Z.of_nat (length (players g))
     ∧ (last = ∅ → ServerInfo.player_sbn_count i = 0)
     ∧ (last !! grid g0 = None → ServerInfo.player_sbn_count i = 0)
     ∧ (∀ p, last !! grid g0 = Some p →
          ServerInfo.player_sbn_count i
          = ServerInfo.player_count i - ServerInfo.player_count p)
     ∧ ∃ i', collect (collect last grids) grids !! grid g0 = Some i'
             ∧ ServerInfo.player_count i' = ServerInfo.player_count i
             ∧ ServerInfo.player_sbn_count i' = 0)
  ∧ (∀ s i, collect last grids !! s = Some i →
       (∃ g, g ∈ grids ∧ grid g = s)
       ∧ (last !! s = None → ServerInfo.player_sbn_count i = 0)
       ∧ (∀ p, last !! s = Some p →
            ServerInfo.player_sbn_count i
            = ServerInfo.player_count i - ServerInfo.player_count p))
  ∧ (∀ s i', collect (collect last grids) grids !! s = Some i' →
       ServerInfo.player_sbn_count i' = 0).
Proof.
  intros Hin.
  destruct (latest_grid_found g0 grids Hin) as (g & Hlatest & _ & Hname).
  assert (H1 : collect last grids !! grid g0 = Some (entry_of last g))
    by (rewrite collect_latest, Hlatest; reflexivity).
  assert (H2 : collect (collect last grids) grids !! grid g0
               = Some (entry_of (collect last grids) g))
    by (rewrite collect_latest, Hlatest; reflexivity).
  destruct (population_delta_entries last grids _ _ H1)
    as (_ & Hnone & Hsome & Htwice).
  split; [|split].
  - exists g, (entry_of last g).
    split; [exact Hlatest|]. split; [exact H1|]. split; [reflexivity|].
    split; [intros ->; apply Hnone, lookup_empty|].
    split; [exact Hnone|]. split; [exact Hsome|].
    exists (entry_of (collect last grids) g).
    split; [exact H2|]. split; [reflexivity | exact (Htwice _ _ H2)].
  - intros s i H.
    destruct (population_delta_entries last grids s i H)
      as (Hfeed & Hn & Hs & _).
    split; [exact Hfeed|]. split; assumption.
  - intros s i' H'. exact (Htwice s i' H').
Qed.

Lemma population_delta_witness :
  grid_a1 ∈ feed
  ∧ ∃ i, collect {[ "A1" := a1_with 10 ]} feed !! "A1" = Some i
         ∧ ServerInfo.player_count i = 15
         ∧ ServerInfo.player_sbn_count i = 5.
Proof.
  assert (Hin : grid_a1 ∈ feed) by (left).
  split; [exact Hin|].
  destruct (population_delta {[ "A1" := a1_with 10 ]} feed grid_a1 Hin)
    as ((g & i & Hlatest & Hi & Hcount & _ & _ & Hdelta & _) & _).
  exists i. split; [exact Hi|].
  assert (Hg : g = grid_a1).
  { assert (Hl : latest_grid (grid grid_a1) feed = Some grid_a1)
      by reflexivity.
    rewrite Hl in Hlatest. inversion Hlatest. reflexivity. }
  assert (Hp : ({[ "A1" := a1_with 10 ]} : gmap string ServerInfo.t)
                 !! grid grid_a1 = Some (a1_with 10))
    by (vm_compute; reflexivity).
  split.
  - rewrite Hcount, Hg. reflexivity.
  - rewrite (Hdelta _ Hp), Hcount, Hg. reflexivity.
Defined.

(** ** The notification policy (lines 340-373) *)

Lemma contains_elem_of (l : list string) (x : string) :
  Py.contains l x = true ↔ x ∈ l.
Proof.
  unfold Py.contains. induction l as [|y l IH]; simpl.
  - split; [discriminate | intros H; inversion H].
  - rewrite orb_true_iff, IH, String.eqb_eq, elem_of_cons. reflexivity.
Qed.

Lemma list_remove_elem_of (x y : string) (l : list string) :
  y ∈ Py.list_remove x l → y ∈ l.
Proof.
  induction l as [|z l IH]; simpl; [trivial|].
  destruct (String.eqb z x); rewrite !elem_of_cons; intuition.
Qed.

Lemma list_remove_NoDup (x : string) (l : list string) :
  NoDup l → NoDup (Py.list_remove x l) ∧ x ∉ Py.list_remove x l.
Proof.
  induction 1 as [|z l Hz Hl [IH1 IH2]]; simpl.
  - split; [constructor | apply not_elem_of_nil].
  - destruct (String.eqb z x) eqn:E.
    + apply String.eqb_eq in E. subst z. split; assumption.
    + apply String.eqb_neq in E. split.
      * constructor; [|exact IH1].
        intros Hin. apply Hz. eapply list_remove_elem_of, Hin.
      * rewrite elem_of_cons. intros [-> | Hin]; [congruence | auto].
Qed.

Section Policy.

Variables (timestr : string) (servers_info : gmap string ServerInfo.t).
Variables (tgt_channel : Channel) (i : ServerInfo.t) (c : ASWDConfig).
Hypothesis processed : servers_info !! Py.upper (name tgt_channel) = Some i.

Let names := blacklist_notice_server_names c.
Let srv := ServerInfo.server_name i.
Let matches := ServerInfo.blacklist_players i.
Let surge := player_sbn_count c <=? ServerInfo.player_sbn_count i.
Let enter := (0 <? Z.of_nat (length matches)) && negb (Py.contains names srv).
Let clear := (Z.of_nat (length matches) =? 0) && Py.contains names srv.

(** The whole effect of processing one server, in closed form. *)
Lemma notify_channel_run :
  notify_channel timestr servers_info tgt_channel c =
  (Ok tt,
   if enter then set_blacklist_notice_server_names (names ++ [srv]) c
   else if clear
        then set_blacklist_notice_server_names (Py.list_remove srv names) c
        else c,
   Send tgt_channel (msg_report timestr i)
   :: (if surge
       then [Send tgt_channel
               (msg_surge (player_sbn_count c) (ServerInfo.player_sbn_count i))]
       else [])
   ++ (if enter then [Send tgt_channel (msg_blacklist_enter matches)] else [])
   ++ (if clear then [Send tgt_channel msg_blacklist_clear] else [])).
Proof.
  unfold notify_channel. rewrite processed.
  unfold notify_surge, notify_blacklist_enter, notify_blacklist_clear.
  subst surge enter clear names srv matches.
  unfold bind, config, when, send_message, emit, modify, ret.
  destruct (player_sbn_count c <=? ServerInfo.player_sbn_count i);
    destruct (ServerInfo.blacklist_players i) as [|p l]; simpl;
    destruct (Py.contains (blacklist_notice_server_names c)
                (ServerInfo.server_name i)); reflexivity.
Qed.

Lemma surge_filter :
  filter (λ e, is_surge_alert e = true)
    (trace (notify_channel timestr servers_info tgt_channel c))
  = if surge
    then [Send tgt_channel
            (msg_surge (player_sbn_count c) (ServerInfo.player_sbn_count i))]
    else [].
Proof.
  rewrite notify_channel_run. unfold trace. cbn [snd].
  destruct surge, enter, clear; reflexivity.
Qed.

Lemma blacklist_alert_filter :
  filter (λ e, is_blacklist_alert e = true)
    (trace (notify_channel timestr servers_info tgt_channel c))
  = if enter then [Send tgt_channel (msg_blacklist_enter matches)] else [].
Proof.
  rewrite notify_channel_run. unfold trace. cbn [snd].
  destruct surge, enter, clear; reflexivity.
Qed.

Lemma blacklist_clear_filter :
  filter (λ e, is_blacklist_clear e = true)
    (trace (notify_channel timestr servers_info tgt_channel c))
  = if clear then [Send tgt_channel msg_blacklist_clear] else [].
Proof.
  rewrite notify_channel_run. unfold trace. cbn [snd].
  destruct surge, enter, clear; reflexivity.
Qed.

Lemma enter_iff : enter = true ↔ (0 < length matches)%nat ∧ srv ∉ names.
Proof.
  subst enter. rewrite andb_true_iff, negb_true_iff, Z.ltb_lt.
  rewrite <- not_true_iff_false, contains_elem_of.
  split; intros [H1 H2]; (split; [lia | exact H2]).
Qed.

Lemma clear_iff : clear = true ↔ length matches = 0%nat ∧ srv ∈ names.
Proof.
  subst clear. rewrite andb_true_iff, Z.eqb_eq, contains_elem_of.
  split; intros [H1 H2]; (split; [lia | exact H2]).
Qed.

Lemma names_after :
  blacklist_notice_server_names
    (final (notify_channel timestr servers_info tgt_channel c))
  = if enter then names ++ [srv]
    else if clear then Py.list_remove srv names else names.
Proof.
  rewrite notify_channel_run. unfold final. cbn [fst snd].
  destruct enter, clear; reflexivity.
Qed.

End Policy.

(** C3. For every server processed in a tick (a destination channel whose
    upper-cased name is a key of the collected data), the surge alert is
    sent if and only if the configured threshold is at most the server's
    population delta, and then exactly once, to that channel, with the
    threshold and the delta; so it is sent when the delta equals the
    threshold. *)
Theorem surge_alert_iff (timestr : string)
    (servers_info : gmap string ServerInfo.t) (tgt_channel : Channel)
    (i : ServerInfo.t) (c : ASWDConfig) :
  servers_info !! Py.upper (name tgt_channel) = Some i →
  let t := trace (notify_channel timestr servers_info tgt_channel c) in
  let delta := ServerInfo.player_sbn_count i in
  let threshold := player_sbn_count c in
  ((0 < times is_surge_alert t)%nat ↔ delta >= threshold)
  ∧ (times is_surge_alert t ≤ 1)%nat
  ∧ (delta >= threshold →
       Send tgt_channel (msg_surge threshold delta) ∈ t)
  ∧ (delta = threshold → times is_surge_alert t = 1%nat).
Proof.
  intros H t delta threshold. subst t delta threshold. unfold times.
  rewrite (surge_filter _ _ _ _ _ H).
  pose proof (notify_channel_run timestr _ _ _ c H) as Hrun.
  cbv zeta in *.
  destruct (player_sbn_count c <=? ServerInfo.player_sbn_count i) eqn:E.
  - pose proof (proj1 (Z.leb_le _ _) E) as Hle. simpl.
    repeat split; try lia.
    intros _. rewrite Hrun. unfold trace. cbn [snd].
    apply elem_of_cons. right. apply elem_of_cons. left. reflexivity.
  - apply Z.leb_gt in E. simpl. repeat split; try lia.
Qed.

(** Previous population 10, current 15, threshold 5. *)
Lemma surge_alert_iff_witness :
  collect {[ "A1" := a1_with 10 ]} feed !! Py.upper (name a1)
  = Some {| ServerInfo.server_name := "A1"; ServerInfo.player_count := 15;
            ServerInfo.player_sbn_count := 5;
            ServerInfo.blacklist_players := [] |}
  ∧ Send a1 (msg_surge 5 5)
    ∈ trace (notify_channel "11/04 07:22"
               (collect {[ "A1" := a1_with 10 ]} feed) a1 stopped).
Proof.
  assert (H : collect {[ "A1" := a1_with 10 ]} feed !! Py.upper (name a1)
              = Some {| ServerInfo.server_name := "A1";
                        ServerInfo.player_count := 15;
                        ServerInfo.player_sbn_count := 5;
                        ServerInfo.blacklist_players := [] |})
    by (vm_compute; reflexivity).
  split; [exact H|].
  apply (surge_alert_iff "11/04 07:22" _ a1 _ stopped H).
  vm_compute. discriminate.
Defined.

(** One processing of a server against the list of alerted servers. *)
Lemma blacklist_step (timestr : string)
    (servers_info : gmap string ServerInfo.t) (tgt_channel : Channel)
    (i : ServerInfo.t) (c : ASWDConfig) :
  servers_info !! Py.upper (name tgt_channel) = Some i →
  NoDup (blacklist_notice_server_names c) →
  let run := notify_channel timestr servers_info tgt_channel c in
  let matches := ServerInfo.blacklist_players i in
  let srv := ServerInfo.server_name i in
  let before := blacklist_notice_server_names c in
  let after := blacklist_notice_server_names (final run) in
  (times is_blacklist_alert (trace run)
   = if bool_decide ((0 < length matches)%nat ∧ srv ∉ before)
     then 1%nat else 0%nat)
  ∧ (times is_blacklist_clear (trace run)
     = if bool_decide (length matches = 0%nat ∧ srv ∈ before)
       then 1%nat else 0%nat)
  ∧ ((0 < length matches)%nat ∧ srv ∉ before → srv ∈ after)
  ∧ (length matches = 0%nat ∧ srv ∈ before → srv ∉ after)
  ∧ NoDup after.
Proof.
  intros H Hnd run matches srv before after.
  subst run matches srv before after. unfold times.
  rewrite (blacklist_alert_filter _ _ _ _ _ H).
  rewrite (blacklist_clear_filter _ _ _ _ _ H).
  rewrite (names_after _ _ _ _ _ H).
  pose proof (enter_iff i c) as He. pose proof (clear_iff i c) as Hc.
  cbv zeta in *.
  destruct (list_remove_NoDup (ServerInfo.server_name i) _ Hnd) as [Hnd' Hout].
  destruct ((0 <? Z.of_nat (length (ServerInfo.blacklist_players i)))
            && negb (Py.contains (blacklist_notice_server_names c)
                       (ServerInfo.server_name i))) eqn:E1;
    destruct ((Z.of_nat (length (ServerInfo.blacklist_players i)) =? 0)
              && Py.contains (blacklist_notice_server_names c)
                   (ServerInfo.server_name i)) eqn:E2.
  - destruct (proj1 He eq_refl), (proj1 Hc eq_refl). lia.
  - destruct (proj1 He eq_refl) as [Hlen Hnot].
    rewrite bool_decide_eq_true_2 by (split; assumption).
    rewrite bool_decide_eq_false_2 by lia.
    repeat split; try reflexivity.
    + intros _. apply elem_of_app. right. apply list_elem_of_singleton.
      reflexivity.
    + lia.
    + apply NoDup_app. split; [exact Hnd|]. split; [|apply NoDup_singleton].
      intros x Hx Hx'. apply list_elem_of_singleton in Hx'. subst x. auto.
  - destruct (proj1 Hc eq_refl) as [Hlen Hin].
    rewrite bool_decide_eq_false_2 by lia.
    rewrite bool_decide_eq_true_2 by (split; assumption).
    repeat split; try reflexivity; try assumption; try lia.
    intros _. exact Hout.
  - rewrite bool_decide_eq_false_2
      by (intros Hp; apply He in Hp; discriminate).
    rewrite bool_decide_eq_false_2
      by (intros Hp; apply Hc in Hp; discriminate).
    repeat split; try reflexivity; try assumption.
    + intros Hp. apply He in Hp. discriminate.
    + intros Hp. apply Hc in Hp. discriminate.
Qed.

Lemma list_remove_other (x y : string) (l : list string) :
  y ≠ x → y ∈ l → y ∈ Py.list_remove x l.
Proof.
  intros Hne. induction l as [|z l IH]; simpl; [trivial|].
  destruct (String.eqb z x) eqn:E; rewrite !elem_of_cons.
  - apply String.eqb_eq in E. subst z. intros [-> | H]; [congruence | exact H].
  - intros [-> | H]; [left; reflexivity | right; exact (IH H)].
Qed.

(** A step whose channel names no server of its data sends the data-error
    notice and changes nothing. *)
Lemma run_step_no_server st c :
  step_server st = None →
  run_step st c
  = (Ok tt, c,
     [Send (step_channel st)
        (msg_no_data (step_time st) (Py.upper (name (step_channel st))))]).
Proof.
  unfold step_server, run_step, notify_channel. intros ->. reflexivity.
Qed.

(** While a server is in the list of alerted servers and keeps having
    matches, no step that processes it sends the alert, and it stays in the
    list. *)
Lemma alerted_stays_quiet (srv : string) (steps : list Step) : ∀ c,
  NoDup (blacklist_notice_server_names c) →
  srv ∈ blacklist_notice_server_names c →
  (∀ st i, st ∈ steps → step_server st = Some i →
           ServerInfo.server_name i = srv →
           (0 < length (ServerInfo.blacklist_players i))%nat) →
  (∀ st t i, (st, t) ∈ (run_steps steps c).1 → step_server st = Some i →
             ServerInfo.server_name i = srv →
             times is_blacklist_alert t = 0%nat)
  ∧ srv ∈ blacklist_notice_server_names (run_steps steps c).2.
Proof.
  induction steps as [|st steps IH]; intros c Hnd Hin Hpresent; simpl.
  - split; [intros st t i H; inversion H | exact Hin].
  - assert (Hstep :
      NoDup (blacklist_notice_server_names (final (run_step st c)))
      ∧ srv ∈ blacklist_notice_server_names (final (run_step st c))
      ∧ ∀ i, step_server st = Some i → ServerInfo.server_name i = srv →
             times is_blacklist_alert (trace (run_step st c)) = 0%nat).
    { destruct (step_server st) as [i|] eqn:E.
      - destruct (blacklist_step (step_time st) _ _ _ c E Hnd)
          as (Ha & _ & _ & _ & Hnd').
        pose proof (names_after (step_time st) _ _ _ c E) as Hnames.
        cbv zeta in Hnames. fold (run_step st c) in Ha, Hnd', Hnames.
        split; [exact Hnd'|]. split.
        + rewrite Hnames.
          destruct ((0 <? Z.of_nat (length (ServerInfo.blacklist_players i)))
                    && negb (Py.contains (blacklist_notice_server_names c)
                               (ServerInfo.server_name i)));
            [apply elem_of_app; left; exact Hin|].
          destruct ((Z.of_nat (length (ServerInfo.blacklist_players i)) =? 0)
                    && Py.contains (blacklist_notice_server_names c)
                         (ServerInfo.server_name i)) eqn:Ec;
            [|exact Hin].
          apply list_remove_other; [|exact Hin].
          intros ->. apply (clear_iff i c) in Ec as [Hz _].
          specialize (Hpresent st i (list_elem_of_here _ _) E eq_refl). lia.
        + intros i' Hi' Hsrv. inversion Hi'; subst i'. rewrite Ha.
          rewrite bool_decide_eq_false_2; [reflexivity|].
          intros [_ Hnot]. apply Hnot. rewrite Hsrv. exact Hin.
      - rewrite (run_step_no_server _ _ E). unfold final. cbn [fst snd].
        split; [exact Hnd|]. split; [exact Hin | discriminate]. }
    destruct Hstep as (Hnd' & Hin' & Hquiet).
    destruct (IH (final (run_step st c)) Hnd' Hin') as [IH1 IH2].
    { intros st' i' Hst'. apply Hpresent. right. exact Hst'. }
    destruct (run_steps steps (final (run_step st c))) as [later c'].
    cbn [fst snd] in *. split; [|exact IH2].
    intros st' t i H Hsrv Hname. apply elem_of_cons in H as [H | H].
    + inversion H; subst st' t. eapply Hquiet; eassumption.
    + eapply IH1; eassumption.
Qed.

(** While a server is out of the list of alerted servers and keeps having
    no match, no step that processes it sends the clear notice, and it
    stays out of the list. *)
Lemma cleared_stays_quiet (srv : string) (steps : list Step) : ∀ c,
  NoDup (blacklist_notice_server_names c) →
  srv ∉ blacklist_notice_server_names c →
  (∀ st i, st ∈ steps → step_server st = Some i →
           ServerInfo.server_name i = srv →
           length (ServerInfo.blacklist_players i) = 0%nat) →
  (∀ st t i, (st, t) ∈ (run_steps steps c).1 → step_server st = Some i →
             ServerInfo.server_name i = srv →
             times is_blacklist_clear t = 0%nat)
  ∧ srv ∉ blacklist_notice_server_names (run_steps steps c).2.
Proof.
  induction steps as [|st steps IH]; intros c Hnd Hout Habsent; simpl.
  - split; [intros st t i H; inversion H | exact Hout].
  - assert (Hstep :
      NoDup (blacklist_notice_server_names (final (run_step st c)))
      ∧ (srv ∉ blacklist_notice_server_names (final (run_step st c)))
      ∧ ∀ i, step_server st = Some i → ServerInfo.server_name i = srv →
             times is_blacklist_clear (trace (run_step st c)) = 0%nat).
    { destruct (step_server st) as [i|] eqn:E.
      - destruct (blacklist_step (step_time st) _ _ _ c E Hnd)
          as (_ & Hc & _ & _ & Hnd').
        pose proof (names_after (step_time st) _ _ _ c E) as Hnames.
        cbv zeta in Hnames. fold (run_step st c) in Hc, Hnd', Hnames.
        split; [exact Hnd'|]. split.
        + rewrite Hnames.
          destruct ((0 <? Z.of_nat (length (ServerInfo.blacklist_players i)))
                    && negb (Py.contains (blacklist_notice_server_names c)
                               (ServerInfo.server_name i))) eqn:Ee.
          * rewrite elem_of_app, list_elem_of_singleton.
            intros [H | ->]; [exact (Hout H)|].
            apply (enter_iff i c) in Ee as [Hpos _].
            specialize (Habsent st i (list_elem_of_here _ _) E eq_refl). lia.
          * destruct ((Z.of_nat (length (ServerInfo.blacklist_players i)) =? 0)
                    && Py.contains (blacklist_notice_server_names c)
                         (ServerInfo.server_name i));
              [|exact Hout].
            intros H. apply Hout. eapply list_remove_elem_of, H.
        + intros i' Hi' Hsrv. inversion Hi'; subst i'. rewrite Hc.
          rewrite bool_decide_eq_false_2; [reflexivity|].
          intros [_ Hin]. apply Hout. rewrite <- Hsrv. exact Hin.
      - rewrite (run_step_no_server _ _ E). unfold final. cbn [fst snd].
        split; [exact Hnd|]. split; [exact Hout | discriminate]. }
    destruct Hstep as (Hnd' & Hout' & Hquiet).
    destruct (IH (final (run_step st c)) Hnd' Hout') as [IH1 IH2].
    { intros st' i' Hst'. apply Habsent. right. exact Hst'. }
    destruct (run_steps steps (final (run_step st c))) as [later c'].
    cbn [fst snd] in *. split; [|exact IH2].
    intros st' t i H Hsrv Hname. apply elem_of_cons in H as [H | H].
    + inversion H; subst st' t. eapply Hquiet; eassumption.
    + eapply IH1; eassumption.
Qed.

Lemma once_iff (P : Prop) `{Decision P} (n : nat) :
  n = (if bool_decide P then 1 else 0)%nat → ((0 < n)%nat ↔ P) ∧ (n ≤ 1)%nat.
Proof.
  intros ->. destruct (bool_decide_reflect P) as [Hp | Hn]; simpl.
  - split; [|lia]. split; [intros _; exact Hp | lia].
  - split; [|lia]. split; [lia | intros Hp; destruct (Hn Hp)].
Qed.

(** C4. For every server processed in a tick, with the list of alerted
    servers free of repetitions (as it is from the empty list on): the
    blacklist alert is sent exactly when the server has at least one match
    and is not in the list, and the server is then in the list afterwards;
    the clear notice is sent exactly when the server has no match and is in
    the list, and the server is then out of the list afterwards; neither is
    sent twice in one processing, the list stays free of repetitions, and
    the next processing of the same server does not send the alert again
    after an alert, nor the clear notice again after a clear notice.  Over
    any later processings, of this and other servers: after an alert, as
    long as every processing of this server finds a match, none of them
    sends the alert; after a clear notice, as long as every processing of
    this server finds no match, none of them sends the clear notice. *)
Theorem blacklist_transitions (timestr : string)
    (servers_info : gmap string ServerInfo.t) (tgt_channel : Channel)
    (i : ServerInfo.t) (c : ASWDConfig) :
  servers_info !! Py.upper (name tgt_channel) = Some i →
  NoDup (blacklist_notice_server_names c) →
  let run := notify_channel timestr servers_info tgt_channel c in
  let matches := ServerInfo.blacklist_players i in
  let srv := ServerInfo.server_name i in
  let before := blacklist_notice_server_names c in
  let after := blacklist_notice_server_names (final run) in
  ((0 < times is_blacklist_alert (trace run))%nat
     ↔ (0 < length matches)%nat ∧ srv ∉ before)
  ∧ ((0 < times is_blacklist_alert (trace run))%nat → srv ∈ after)
  ∧ ((0 < times is_blacklist_clear (trace run))%nat
     ↔ length matches = 0%nat ∧ srv ∈ before)
  ∧ ((0 < times is_blacklist_clear (trace run))%nat → srv ∉ after)
  ∧ (times is_blacklist_alert (trace run) ≤ 1)%nat
  ∧ (times is_blacklist_clear (trace run) ≤ 1)%nat
  ∧ NoDup after
  ∧ (∀ timestr' servers_info' tgt_channel' i',
       servers_info' !! Py.upper (name tgt_channel') = Some i' →
       ServerInfo.server_name i' = srv →
       let next :=
         notify_channel timestr' servers_info' tgt_channel' (final run) in
       ((0 < times is_blacklist_alert (trace run))%nat →
          times is_blacklist_alert (trace next) = 0%nat)
       ∧ ((0 < times is_blacklist_clear (trace run))%nat →
            times is_blacklist_clear (trace next) = 0%nat))
  ∧ (∀ steps,
       (0 < times is_blacklist_alert (trace run))%nat →
       (∀ st i', st ∈ steps → step_server st = Some i' →
                 ServerInfo.server_name i' = srv →
                 (0 < length (ServerInfo.blacklist_players i'))%nat) →
       ∀ st t i', (st, t) ∈ (run_steps steps (final run)).1 →
                  step_server st = Some i' →
                  ServerInfo.server_name i' = srv →
                  times is_blacklist_alert t = 0%nat)
  ∧ (∀ steps,
       (0 < times is_blacklist_clear (trace run))%nat →
       (∀ st i', st ∈ steps → step_server st = Some i' →
                 ServerInfo.server_name i' = srv →
                 length (ServerInfo.blacklist_players i') = 0%nat) →
       ∀ st t i', (st, t) ∈ (run_steps steps (final run)).1 →
                  step_server st = Some i' →
                  ServerInfo.server_name i' = srv →
                  times is_blacklist_clear t = 0%nat).
Proof.
  intros H Hnd run matches srv before after.
  destruct (blacklist_step timestr _ _ _ c H Hnd)
    as (Ha & Hc & Hin & Hout & Hnd').
  fold run matches srv before after in Ha, Hc, Hin, Hout, Hnd'.
  destruct (once_iff _ _ Ha) as [Halert Ha1].
  destruct (once_iff _ _ Hc) as [Hclear Hc1].
  split; [exact Halert|]. split; [intros Hp; apply Hin, Halert, Hp|].
  split; [exact Hclear|]. split; [intros Hp; apply Hout, Hclear, Hp|].
  split; [exact Ha1|]. split; [exact Hc1|].
  split; [exact Hnd'|]. split; [|split].
  - intros timestr' servers_info' tgt_channel' i' H' Hsame next.
    destruct (blacklist_step timestr' _ _ _ (final run) H' Hnd')
      as (Ha' & Hc' & _).
    fold next after in Ha', Hc'. rewrite Hsame in Ha', Hc'.
    split; intros Hp.
    + rewrite Ha'. apply Halert, Hin in Hp.
      rewrite bool_decide_eq_false_2; [reflexivity | tauto].
    + rewrite Hc'. apply Hclear, Hout in Hp.
      rewrite bool_decide_eq_false_2; [reflexivity | tauto].
  - intros steps Hp Hpresent.
    apply (alerted_stays_quiet srv steps (final run) Hnd'); [|exact Hpresent].
    apply Hin, Halert, Hp.
  - intros steps Hp Habsent.
    apply (cleared_stays_quiet srv steps (final run) Hnd'); [|exact Habsent].
    apply Hout, Hclear, Hp.
Qed.

Lemma blacklist_transitions_witness :
  ({[ "A1" := a1_invaded ]} : gmap string ServerInfo.t) !! Py.upper (name a1)
  = Some a1_invaded
  ∧ NoDup (blacklist_notice_server_names stopped)
  ∧ (0 < times is_blacklist_alert
           (trace (notify_channel "11/04 07:22" {[ "A1" := a1_invaded ]}
                     a1 stopped)))%nat
  ∧ "A1" ∈ blacklist_notice_server_names
             (final (notify_channel "11/04 07:22" {[ "A1" := a1_invaded ]}
                       a1 stopped)).
Proof.
  assert (H : ({[ "A1" := a1_invaded ]} : gmap string ServerInfo.t)
                !! Py.upper (name a1) = Some a1_invaded)
    by (vm_compute; reflexivity).
  assert (Hnd : NoDup (blacklist_notice_server_names stopped))
    by constructor.
  destruct (blacklist_transitions "11/04 07:22" _ a1 _ stopped H Hnd)
    as (Ha & Hin & _).
  assert (Hp : (0 < times is_blacklist_alert
                      (trace (notify_channel "11/04 07:22"
                                {[ "A1" := a1_invaded ]} a1 stopped)))%nat).
  { apply Ha. split; [simpl; lia | apply not_elem_of_nil]. }
  split; [exact H|]. split; [exact Hnd|]. split; [exact Hp | exact (Hin Hp)].
Defined.

(** ** One pass of the loop (lines 282-384) *)

(** X26. A pass of a running watch in which the fetched body is the empty
    string, the interval being an integer [n] that the sleep accepts: the
    pass sends the empty-body error notice to the channel of the start
    message, sleeps [n] seconds and does nothing else, so no server data is
    collected or notified; the whole configuration, and with it the
    previous server data, is left as it was; and the coroutine is still in
    its loop afterwards. *)
Theorem empty_body_tick (env : Env) (message : Message) (c : ASWDConfig)
    (n : Z) :
  is_watch_started c = true →
  watch_interval c = PyInt n →
  sleep_overflows env n = false →
  requests_get env (url c) = Ok EmptyString →
  resume env message c
  = (Ok true, c,
     [Get (url c); Send (channel message) msg_empty_json; Sleep n])
  ∧ last_servers_info (final (resume env message c)) = last_servers_info c.
Proof.
  intros Hs Hn Hov Hget.
  assert (E : resume env message c
              = (Ok true, c,
                 [Get (url c); Send (channel message) msg_empty_json;
                  Sleep n])).
  { unfold resume, iteration, fetch, sleep_watch_interval, try_except, bind,
      config, emit, lift, send_message, when, ret.
    rewrite Hs, Hget. simpl. rewrite Hn, Hov. reflexivity. }
  split; [exact E | rewrite E; reflexivity].
Qed.

Lemma empty_body_tick_witness :
  resume (world (Ok EmptyString) (Ok feed)) (said "/start") (cfg watching)
  = (Ok true, cfg watching,
     [Get "http://atlas.example/grids"; Send general msg_empty_json;
      Sleep 60]).
Proof.
  apply (empty_body_tick (world (Ok EmptyString) (Ok feed)) (said "/start")
           (cfg watching) 60); vm_compute; reflexivity.
Defined.

(** C6 (the code does not keep this claim). After [/start] and then
    [/set world NA], which stores the string in the interval field, a pass
    that fetches an empty body sends the empty-body notice and then fails
    in the sleep of line 291; the handler of line 293 logs that and sends
    the connection-failed notice, and fails in the sleep of line 299; the
    handler of line 377 logs and sends the continuation warning; the sleep
    of line 384 fails outside both handlers.  The pass has not slept, and
    the only loop coroutine is gone: there is no next tick. *)
Theorem empty_body_string_interval_ends_loop :
  loops watching_world_set = [said "/start"]
  ∧ is_watch_started (cfg watching_world_set) = true
  ∧ watch_interval (cfg watching_world_set) = PyStr "NA"
  ∧ resume (world (Ok EmptyString) (Ok feed)) (said "/start")
      (cfg watching_world_set)
    = (Raise TypeError, cfg watching_world_set,
       [Get "http://atlas.example/grids"; Send general msg_empty_json;
        Traceback TypeError; Send general msg_connect_failed;
        Traceback TypeError; Send general msg_continue])
  ∧ loops (on_wake (world (Ok EmptyString) (Ok feed)) 0 watching_world_set)
    = [].
Proof. vm_compute. repeat split; reflexivity. Qed.

Lemma same_settings_refl c : same_settings c c.
Proof. split; reflexivity. Qed.

Lemma same_settings_trans c1 c2 c3 :
  same_settings c1 c2 → same_settings c2 c3 → same_settings c1 c3.
Proof. intros [H1 H2] [H3 H4]. split; congruence. Qed.

(** Processing a channel never raises and leaves the loop settings alone. *)
Lemma notify_channel_ok timestr servers_info tgt_channel c :
  result (notify_channel timestr servers_info tgt_channel c) = Ok tt
  ∧ same_settings c (final (notify_channel timestr servers_info tgt_channel c)).
Proof.
  destruct (servers_info !! Py.upper (name tgt_channel)) as [i|] eqn:E.
  - rewrite (notify_channel_run _ _ _ _ c E). cbv zeta. unfold result, final.
    cbn [fst snd]. split; [reflexivity|].
    repeat match goal with |- context [if ?b then _ else _] => destruct b end;
      split; reflexivity.
  - unfold notify_channel. rewrite E. split; [reflexivity|].
    apply same_settings_refl.
Qed.

Lemma for_each_notify_ok timestr servers_info channels : ∀ c,
  result (for_each channels (notify_channel timestr servers_info) c) = Ok tt
  ∧ same_settings c
      (final (for_each channels (notify_channel timestr servers_info) c)).
Proof.
  induction channels as [|ch channels IH]; intros c; simpl.
  - split; [reflexivity | apply same_settings_refl].
  - unfold bind.
    destruct (notify_channel_ok timestr servers_info ch c) as [Hr Hs].
    destruct (notify_channel timestr servers_info ch c) as [[r c1] t1].
    unfold result, final in Hr, Hs. simpl in Hr, Hs. subst r.
    destruct (IH c1) as [Hr' Hs'].
    destruct (for_each channels (notify_channel timestr servers_info) c1)
      as [[r2 c2] t2].
    unfold result, final in *. simpl in *. subst r2.
    split; [reflexivity | eapply same_settings_trans; eassumption].
Qed.

(** Lines 302-376 either raise before anything is sent or stored, or end
    normally; the loop settings are not touched. *)
Lemma process_outcome env body c :
  (∃ e, process env body c = (Raise e, c, [])
        ∧ jsons_loads env body = Raise e)
  ∨ (result (process env body c) = Ok tt
     ∧ same_settings c (final (process env body c))).
Proof.
  unfold process, bind, lift, config, modify.
  destruct (jsons_loads env body) as [grids | e].
  - right.
    destruct (for_each_notify_ok (timestr env)
                (collect (last_servers_info c) grids) (get_channels env) c)
      as [Hr Hs].
    destruct (for_each (get_channels env) _ c) as [[r c1] t1].
    unfold result, final in *. simpl in *. subst r. simpl.
    split; [reflexivity | exact Hs].
  - left. exists e. split; reflexivity.
Qed.

(** With an integer the sleep accepts as interval, a pass of the loop never
    raises: whatever the fetch, the decoder and the channels do, the
    coroutine is still in its loop afterwards. *)
Lemma numeric_interval_stays_alive env message c n :
  is_watch_started c = true →
  watch_interval c = PyInt n →
  sleep_overflows env n = false →
  result (resume env message c) = Ok true.
Proof.
  intros Hs Hn Hov.
  unfold resume, iteration, fetch, sleep_watch_interval, try_except, bind,
    config, emit, lift, send_message, log_traceback, when, ret.
  rewrite Hs. simpl.
  destruct (requests_get env (url c)) as [body | e]; simpl.
  - destruct (Py.truthy body); simpl.
    + destruct (process_outcome env body c) as [(e & Hp & _) | [Hr [Hi _]]].
      * rewrite Hp. simpl. rewrite Hn, Hov. reflexivity.
      * destruct (process env body c) as [[r c1] t1].
        unfold result, final in *. simpl in *. subst r. simpl.
        rewrite Hi, Hn, Hov. reflexivity.
    + rewrite Hn, Hov. reflexivity.
  - rewrite Hn, Hov. reflexivity.
Qed.

(** An exception of the decoding, collecting and notifying part is caught:
    it is written to the log, the warning goes to the channel of the start
    message, and the pass ends with the usual sleep. *)
Lemma process_exception_caught env message c n body e :
  is_watch_started c = true →
  watch_interval c = PyInt n →
  sleep_overflows env n = false →
  requests_get env (url c) = Ok body →
  Py.truthy body = true →
  jsons_loads env body = Raise e →
  resume env message c
  = (Ok true, c,
     [Get (url c); Traceback e; Send (channel message) msg_continue; Sleep n]).
Proof.
  intros Hs Hn Hov Hget Hbody Hloads.
  unfold resume, iteration, fetch, process, sleep_watch_interval, try_except,
    bind, config, emit, lift, send_message, log_traceback, when, ret.
  rewrite Hs, Hget. simpl. rewrite Hbody. simpl. rewrite Hloads. simpl.
  rewrite Hn, Hov. reflexivity.
Qed.

(** With a string as interval, every pass of the loop ends in a
    [TypeError] that no handler catches, the started flag still set. *)
Lemma string_interval_ends_loop env message c s :
  is_watch_started c = true →
  watch_interval c = PyStr s →
  result (resume env message c) = Raise TypeError
  ∧ is_watch_started (final (resume env message c)) = true.
Proof.
  intros Hs Hn.
  unfold resume, iteration, fetch, sleep_watch_interval, try_except, bind,
    config, emit, lift, send_message, log_traceback, when, ret.
  rewrite Hs. simpl.
  destruct (requests_get env (url c)) as [body | e]; simpl.
  - destruct (Py.truthy body); simpl.
    + destruct (process_outcome env body c) as [(e & Hp & _) | [Hr [Hi Hf]]].
      * rewrite Hp. simpl. rewrite Hn. split; [reflexivity | exact Hs].
      * destruct (process env body c) as [[r c1] t1].
        unfold result, final in *. simpl in *. subst r. simpl.
        rewrite Hi, Hn. simpl. split; [reflexivity | congruence].
    + rewrite Hn. simpl. rewrite Hn. simpl. rewrite Hn.
      split; [reflexivity | exact Hs].
  - rewrite Hn. simpl. rewrite Hn. split; [reflexivity | exact Hs].
Qed.

(** C7 (the code does not keep this claim). After [/start] and then
    [/set world NA], which stores the string in the interval field, the next
    pass of the loop reports server A1 and then fails in the sleep of line
    384, outside both handlers: nothing is logged, no warning is sent, and
    the only loop coroutine is gone although the started flag is still set
    and no stop was requested. *)
Theorem loop_ends_without_stop :
  loops watching_world_set = [said "/start"]
  ∧ is_watch_started (cfg watching_world_set) = true
  ∧ watch_interval (cfg watching_world_set) = PyStr "NA"
  ∧ result (resume world_a1 (said "/start") (cfg watching_world_set))
    = Raise TypeError
  ∧ loops (on_wake world_a1 0 watching_world_set) = []
  ∧ is_watch_started (cfg (on_wake world_a1 0 watching_world_set)) = true
  ∧ events (on_wake world_a1 0 watching_world_set)
    = events watching_world_set
      ++ [Get "http://atlas.example/grids"; Send a1 a1_first_report].
Proof. vm_compute. repeat split; reflexivity. Qed.

(** ** The blacklist test (lines 318-332) *)

(** Whatever the configured blacklist and the players, no match is stored. *)
Lemma collect_records_no_match last grids s i :
  collect last grids !! s = Some i → ServerInfo.blacklist_players i = [].
Proof.
  intros H. destruct (collect_from_grid _ _ _ _ H) as (g & _ & _ & ->).
  reflexivity.
Qed.

(** C2 (the code does not keep this claim). With the blacklist ["eviL"] and
    the player "EvilDoer42" on server A1, the test the claim describes
    yields that player, but the data collected for A1 has an empty match
    list, and the pass reports A1 with no blacklisted player and sends no
    blacklist alert. *)
Theorem blacklisted_player_not_recorded :
  blacklist stopped = ["eviL"]
  ∧ evil_doer ∈ players grid_a1
  ∧ spec_blacklist_matches stopped grid_a1 = [evil_doer]
  ∧ ServerInfo.blacklist_players <$> collect ∅ feed !! "A1" = Some []
  ∧ trace (iteration world_a1 (said "/start")
             (set_is_watch_started true stopped))
    = [Get "http://atlas.example/grids"; Send a1 a1_first_report; Sleep 60].
Proof.
  split; [reflexivity|]. split; [left|].
  vm_compute. repeat split; reflexivity.
Qed.

(** ** The commands *)

(** [/start] reaches the loop whatever the started flag says: the class
    overrides [execute], so [valid_custom] is never asked. *)
Lemma start_ignores_flag env ch srv c :
  CommandManager_execute env
    {| content := "/start"; channel := ch; server := srv |} c
  = (Ok (Loops {| content := "/start"; channel := ch; server := srv |}),
     set_is_watch_started true c, [Send ch msg_started]).
Proof. reflexivity. Qed.

(** Every [/start], also one that arrives while the watch runs, leaves one
    more coroutine in the loop (the interval being an integer the sleep
    accepts). *)
Lemma start_adds_loop env ch srv s n :
  watch_interval (cfg s) = PyInt n →
  sleep_overflows env n = false →
  loops (on_message env
           {| content := "/start"; channel := ch; server := srv |} s)
  = loops s ++ [{| content := "/start"; channel := ch; server := srv |}].
Proof.
  intros Hn Hov. unfold on_message, bind. rewrite start_ignores_flag.
  pose proof (numeric_interval_stays_alive env
                {| content := "/start"; channel := ch; server := srv |}
                (set_is_watch_started true (cfg s)) n eq_refl Hn Hov) as Hr.
  destruct (resume env _ (set_is_watch_started true (cfg s)))
    as [[r c1] t1].
  unfold result in Hr. simpl in Hr. subst r. reflexivity.
Qed.

(** C1 (the code does not keep this claim). With the watch running and one
    loop coroutine in place, a second [/start] is answered with the
    watch-started notice, not with the watch-continuing one that
    [valid_custom] would give, and a second loop coroutine runs its first
    pass at once and stays: two tick sequences are under way. *)
Theorem start_while_running_starts_second_loop :
  is_watch_started (cfg watching) = true
  ∧ loops watching = [said "/start"]
  ∧ valid_custom world_a1 (cfg watching) StartCommand (said "/start")
      EmptyString = Some msg_already_watching
  ∧ loops (on_message world_a1 (said "/start") watching)
    = [said "/start"; said "/start"]
  ∧ events (on_message world_a1 (said "/start") watching)
    = events watching
      ++ [Send general msg_started; Get "http://atlas.example/grids";
          Send a1 (msg_report "11/04 07:22" (a1_with 15)); Sleep 60].
Proof. vm_compute. repeat split; reflexivity. Qed.

(** C9 (the code does not keep this claim). [/set player_count abc] passes
    both validations, and [execute_cmd] then fails in [int]: the handler
    ends with a [ValueError] and nothing is sent, where the same argument
    to [/set interval] is answered with the usage text. *)
Theorem player_count_word_raises :
  is_valid SetPlayerSbnCountCommand (said "/set player_count abc") = true
  ∧ valid_custom world_a1 stopped SetPlayerSbnCountCommand
      (said "/set player_count abc") "abc" = None
  ∧ CommandManager_execute world_a1 (said "/set player_count abc") stopped
    = (Raise ValueError, stopped, [])
  ∧ CommandManager_execute world_a1 (said "/set interval abc") stopped
    = (Ok (Returns (Some false)), stopped,
       [Send general
          (Text (msg_bad_interval +:+ Py.nl
                 +:+ usage SetWatchIntervalCommand))]).
Proof. vm_compute. repeat split; reflexivity. Qed.

(** C10. Executing the set-world command with the argument "NA" or "EU"
    leaves the [watch_world] field as it was and assigns the argument
    string to the [watch_interval] field, and answers with the notice that
    the watched world was set. *)
Theorem set_world_writes_interval (env : Env) (ch : Channel) (srv : N)
    (c : ASWDConfig) (args : string) :
  args = "NA" ∨ args = "EU" →
  let message :=
    {| content := "/set world " +:+ args; channel := ch; server := srv |} in
  let run := CommandManager_execute env message c in
  result run = Ok (Returns None)
  ∧ watch_world (final run) = watch_world c
  ∧ watch_interval (final run) = PyStr args
  ∧ final run = set_watch_interval (PyStr args) c
  ∧ trace run
    = [Send ch (Format "監視ワールドを{}秒に設定しました." [PyStr args])].
Proof.
  intros [-> | ->]; cbv zeta; repeat split; reflexivity.
Qed.

Lemma set_world_writes_interval_witness :
  watch_world (final (CommandManager_execute world_a1 (said "/set world EU")
                        stopped)) = "EU"
  ∧ watch_interval (final (CommandManager_execute world_a1
                             (said "/set world NA") stopped)) = PyStr "NA"
  ∧ watch_world (final (CommandManager_execute world_a1
                          (said "/set world NA") stopped)) = "EU".
Proof.
  split; [|split].
  - apply (set_world_writes_interval world_a1 general 7 stopped "EU").
    right. reflexivity.
  - apply (set_world_writes_interval world_a1 general 7 stopped "NA").
    left. reflexivity.
  - apply (set_world_writes_interval world_a1 general 7 stopped "NA").
    left. reflexivity.
Defined.

(** [execute_cmd] of the two commands on an argument that [int] reads as
    the integer [n]: the smaller values are raised to the minimum, with a
    notice, the others are stored as they are. *)
Lemma execute_cmd_coercion (env : Env) (message : Message) (args : string)
    (n : Z) (c : ASWDConfig) :
  str_int env args = Some n →
  let interval_run := execute_cmd env SetWatchIntervalCommand message args c in
  let count_run := execute_cmd env SetPlayerSbnCountCommand message args c in
  result interval_run = Ok true
  ∧ result count_run = Ok true
  ∧ (n < 30 →
       watch_interval (final interval_run) = PyInt 30
       ∧ Send (channel message) coercion_30 ∈ trace interval_run)
  ∧ (30 <= n →
       watch_interval (final interval_run) = PyInt n
       ∧ Send (channel message) coercion_30 ∉ trace interval_run)
  ∧ (n < 3 →
       player_sbn_count (final count_run) = 3
       ∧ Send (channel message) coercion_3 ∈ trace count_run)
  ∧ (3 <= n →
       player_sbn_count (final count_run) = n
       ∧ Send (channel message) coercion_3 ∉ trace count_run).
Proof.
  intros Hint. cbv zeta.
  unfold execute_cmd, int_of_args, bind, modify, send_message, emit, ret.
  rewrite Hint.
  destruct (n <? 30) eqn:E30; destruct (n <? 3) eqn:E3;
    rewrite ?Z.ltb_lt, ?Z.ltb_ge in E30, E3;
    unfold result, final, trace; simpl;
    (split; [reflexivity|]); (split; [reflexivity|]);
    repeat split; intros; try lia; try reflexivity;
    try (apply elem_of_cons; left; reflexivity);
    rewrite list_elem_of_singleton; discriminate.
Qed.

(** ** Arguments that pass validation *)

Lemma all_digits_digits l : ∀ acc b,
  Forall (λ ch, Py.is_digit ch = true) l →
  0 <= acc →
  (l = [] → b = true) →
  ∃ n, Py.digits acc b l = Some n ∧ 0 <= n.
Proof.
  induction l as [|ch l IH]; intros acc b Hall Hacc Hb; simpl.
  - rewrite (Hb eq_refl). exists acc. split; [reflexivity | exact Hacc].
  - inversion Hall as [|? ? Hch Hl]; subst. rewrite Hch.
    apply IH; [exact Hl | | reflexivity].
    unfold Py.digit_val. lia.
Qed.

Lemma digit_not_space ch : Py.is_digit ch = true → Py.is_space ch = false.
Proof.
  unfold Py.is_digit, Py.is_space. intros H.
  apply andb_true_iff in H as [H1 H2].
  apply Nat.leb_le in H1. apply Nat.leb_le in H2.
  apply orb_false_iff. split.
  - apply andb_false_iff. right. apply Nat.leb_gt. lia.
  - apply Nat.eqb_neq. lia.
Qed.

Lemma lstrip_digits l :
  Forall (λ ch, Py.is_digit ch = true) l → Py.lstrip l = l.
Proof.
  destruct 1 as [|ch l Hch Hl]; simpl; [reflexivity|].
  rewrite (digit_not_space _ Hch). reflexivity.
Qed.

Lemma all_digits_Forall s :
  Py.all_digits s = true →
  Forall (λ ch, Py.is_digit ch = true) (String.list_ascii_of_string s).
Proof.
  induction s as [|ch s IH]; simpl; intros H; [constructor|].
  apply andb_true_iff in H as [H1 H2]. constructor; auto.
Qed.

(** An argument the set-interval command accepts is read by [int] as a
    natural number: the command cannot fail in [int]. *)
Lemma isdecimal_int args :
  Py.isdecimal args = true → ∃ n, Py.int args = Some n ∧ 0 <= n.
Proof.
  intros H. destruct args as [|ch s]; [discriminate|].
  unfold Py.isdecimal in H. apply all_digits_Forall in H.
  unfold Py.int, Py.strip. rewrite (lstrip_digits _ H).
  rewrite lstrip_digits by (apply Forall_rev; exact H).
  rewrite rev_involutive. simpl in *.
  inversion H as [|? ? Hch Hl]; subst.
  assert (Ascii.eqb ch "-" = false) as ->.
  { apply Ascii.eqb_neq. intros ->. discriminate. }
  assert (Ascii.eqb ch "+" = false) as ->.
  { apply Ascii.eqb_neq. intros ->. discriminate. }
  rewrite Hch. apply all_digits_digits; [exact Hl | | reflexivity].
  unfold Py.digit_val. lia.
Qed.

Lemma length_append (a b : string) :
  String.length (a +:+ b) = (String.length a + String.length b)%nat.
Proof. induction a as [|ch a IH]; simpl; [reflexivity | rewrite IH; reflexivity]. Qed.

Lemma truthy_length s : Py.truthy s = true → (0 < String.length s)%nat.
Proof. destruct s; simpl; [discriminate | lia]. Qed.

Lemma isdecimal_truthy s : Py.isdecimal s = true → Py.truthy s = true.
Proof. destruct s; [discriminate | reflexivity]. Qed.

(** The dispatcher hands the message to the first command of the list
    that the content starts with. *)
Lemma CommandManager_execute_found env message k c :
  Py.startswith (content message) "/" = true →
  List.find (λ k', is_call k' (content message)) cmd_list = Some k →
  CommandManager_execute env message c = execute env k message c.
Proof.
  intros Hslash Hfind. unfold CommandManager_execute.
  rewrite Hslash, Hfind. reflexivity.
Qed.

(** [Command.execute] on a message that passes both validations. *)
Lemma Command_execute_valid env k message args c :
  is_valid k message = true →
  Py.slice_from (String.length (cmd k) + 1) (content message) = args →
  valid_custom env c k message args = None →
  Command_execute env k message c
  = (execute_cmd env k message args ;; ret None) c.
Proof.
  intros Hvalid Hargs Hcustom. unfold Command_execute.
  cbn [is_cmd_help]. rewrite Hvalid, Hargs. cbn [negb].
  unfold bind at 1. unfold config at 1. rewrite Hcustom.
  destruct (bind _ _ c) as [[r c1] t1]. reflexivity.
Qed.

(** A message that passes the dispatcher and both validations runs
    [execute_cmd] of its command, and the handler returns nothing. *)
Lemma dispatch_valid env message k args c :
  Py.startswith (content message) "/" = true →
  List.find (λ k', is_call k' (content message)) cmd_list = Some k →
  execute env k message
  = (v <- Command_execute env k message ;; ret (Returns v)) →
  is_valid k message = true →
  Py.slice_from (String.length (cmd k) + 1) (content message) = args →
  valid_custom env c k message args = None →
  CommandManager_execute env message c
  = (execute_cmd env k message args ;; ret (Returns None)) c.
Proof.
  intros Hslash Hfind Hexec Hvalid Hargs Hcustom.
  rewrite (CommandManager_execute_found _ _ k) by assumption.
  rewrite Hexec. unfold bind at 1.
  rewrite (Command_execute_valid _ _ _ args) by assumption.
  unfold bind, ret.
  destruct (execute_cmd env k message args c) as [[[b|e] c1] t1];
    [|reflexivity].
  simpl. rewrite !app_nil_r. reflexivity.
Qed.

Lemma prefix_append (a s : string) : String.prefix a (a +:+ s) = true.
Proof.
  induction a as [|ch a IH].
  - destruct s; reflexivity.
  - change (String.prefix (String ch a) (String ch (a +:+ s)) = true).
    simpl. destruct (ascii_dec ch ch) as [_ | Hne]; [exact IH | destruct (Hne eq_refl)].
Qed.
Lemma prefix_append_assoc (a b s : string) :
  String.prefix (a +:+ b) (a +:+ b +:+ s) = true.
Proof.
  induction a as [|ch a IH].
  - exact (prefix_append b s).
  - change (String.prefix (String ch (a +:+ b)) (String ch (a +:+ b +:+ s)) = true).
    simpl. destruct (ascii_dec ch ch) as [_ | Hne]; [exact IH | destruct (Hne eq_refl)].
Qed.

Lemma has_args_valid k ch srv args :
  has_args k = true →
  Py.truthy args = true →
  is_valid k {| content := cmd k +:+ " " +:+ args; channel := ch;
                server := srv |} = true.
Proof.
  intros Hk Hargs. unfold is_valid. rewrite Hk. cbn [content].
  unfold Py.startswith. rewrite prefix_append_assoc.
  cbn [andb]. apply Z.ltb_lt. unfold Py.len.
  pose proof (truthy_length _ Hargs).
  rewrite !length_append. simpl String.length. lia.
Qed.

(** Running [m] and then returning [v]: the same events and final
    configuration, and the value [v] when [m] ends normally. *)
Lemma then_returns {A B} (m : M A) (v : B) (c : ASWDConfig) :
  final ((m ;; ret v) c) = final (m c)
  ∧ trace ((m ;; ret v) c) = trace (m c)
  ∧ (∀ a, result (m c) = Ok a → result ((m ;; ret v) c) = Ok v)
  ∧ (∀ e, result (m c) = Raise e → result ((m ;; ret v) c) = Raise e).
Proof.
  unfold bind, ret, final, trace, result.
  destruct (m c) as [[[a|e] c1] t1]; simpl; rewrite ?app_nil_r;
    repeat split; intros; congruence.
Qed.

(** A [/set interval] message with an accepted argument goes through the
    dispatcher and both validations to [execute_cmd]. *)
Lemma set_interval_dispatch env ch srv c args :
  Py.truthy args = true →
  str_isdecimal env args = true →
  CommandManager_execute env (from ch srv ("/set interval " +:+ args)) c
  = (execute_cmd env SetWatchIntervalCommand
       (from ch srv ("/set interval " +:+ args)) args ;;
     ret (Returns None)) c.
Proof.
  intros Hargs Hdec.
  apply (dispatch_valid _ _ SetWatchIntervalCommand args); try reflexivity.
  - apply (has_args_valid SetWatchIntervalCommand);
      [reflexivity | exact Hargs].
  - cbn [valid_custom]. rewrite Hdec, Hargs. reflexivity.
Qed.

(** A [/set interval] message with a non-empty argument that is not decimal
    is refused. *)
Lemma set_interval_refused env ch srv c args :
  Py.truthy args = true →
  str_isdecimal env args = false →
  CommandManager_execute env (from ch srv ("/set interval " +:+ args)) c
  = (Ok (Returns (Some false)), c,
     [Send ch (Text (msg_bad_interval +:+ Py.nl
                     +:+ usage SetWatchIntervalCommand))]).
Proof.
  intros Hargs Hdec.
  rewrite (CommandManager_execute_found _ _ SetWatchIntervalCommand)
    by reflexivity.
  unfold execute, bind.
  assert (Hvalid : is_valid SetWatchIntervalCommand
                     (from ch srv ("/set interval " +:+ args)) = true)
    by (apply (has_args_valid SetWatchIntervalCommand);
        [reflexivity | exact Hargs]).
  unfold Command_execute. cbn [is_cmd_help]. rewrite Hvalid. cbn [negb].
  unfold bind at 1. unfold config at 1.
  assert (Hslice : Py.slice_from
                     (String.length (cmd SetWatchIntervalCommand) + 1)
                     (content (from ch srv ("/set interval " +:+ args)))
                   = args) by reflexivity.
  rewrite Hslice. cbn [valid_custom]. rewrite Hargs, Hdec. reflexivity.
Qed.

(** A [/set player_count] message with a non-empty argument goes through
    the dispatcher and both validations to [execute_cmd]. *)
Lemma set_player_count_dispatch env ch srv c args :
  Py.truthy args = true →
  CommandManager_execute env (from ch srv ("/set player_count " +:+ args)) c
  = (execute_cmd env SetPlayerSbnCountCommand
       (from ch srv ("/set player_count " +:+ args)) args ;;
     ret (Returns None)) c.
Proof.
  intros Hargs.
  apply (dispatch_valid _ _ SetPlayerSbnCountCommand args); try reflexivity.
  - apply (has_args_valid SetPlayerSbnCountCommand);
      [reflexivity | exact Hargs].
  - cbn [valid_custom]. rewrite Hargs. reflexivity.
Qed.


(** The interval minimum is not applied to an integer argument that is not
    written with decimal digits only: [int] reads ["-5"] as the
    integer -5, below 30, but [/set interval -5] is refused by
    [valid_custom] (line 583, [isdecimal]), the interval complaint is sent
    and the stored interval stays 60; 30 is not stored. *)
Lemma negative_interval_refused :
  str_int world_a1 "-5" = Some (-5)
  ∧ -5 < 30
  ∧ CommandManager_execute world_a1 (said "/set interval -5") stopped
    = (Ok (Returns (Some false)), stopped,
       [Send general (Text (msg_bad_interval +:+ Py.nl
                            +:+ usage SetWatchIntervalCommand))])
  ∧ watch_interval
      (final (CommandManager_execute world_a1 (said "/set interval -5")
                stopped)) ≠ PyInt 30.
Proof.
  split; [reflexivity|]. split; [lia|]. split; [reflexivity|].
  vm_compute. discriminate.
Qed.

(** C8 (amended).  Through the dispatcher, for every non-empty argument
    that [int] reads as the integer [n]:
    - [/set interval] with an argument that passes [isdecimal] returns
      normally; [n < 30] stores 30 and sends the coercion notice,
      [30 <= n] stores [n] and sends no such notice;
    - [/set interval] with an argument that does not pass [isdecimal]
      (a sign, blanks or underscores around the digits) is refused with
      the interval complaint and the usage, and nothing is stored;
    - [/set player_count] returns normally; [n < 3] stores 3 and sends the
      coercion notice, [3 <= n] stores [n] and sends no such notice. *)
Theorem minimum_coercion (env : Env) (args : string) (n : Z) (ch : Channel)
    (srv : N) (c : ASWDConfig) :
  Py.truthy args = true →
  str_int env args = Some n →
  let interval_run :=
    CommandManager_execute env (from ch srv ("/set interval " +:+ args)) c in
  let count_run :=
    CommandManager_execute env
      (from ch srv ("/set player_count " +:+ args)) c in
  (str_isdecimal env args = true →
     result interval_run = Ok (Returns None)
     ∧ (n < 30 →
          watch_interval (final interval_run) = PyInt 30
          ∧ Send ch coercion_30 ∈ trace interval_run)
     ∧ (30 <= n →
          watch_interval (final interval_run) = PyInt n
          ∧ Send ch coercion_30 ∉ trace interval_run))
  ∧ (str_isdecimal env args = false →
       interval_run
       = (Ok (Returns (Some false)), c,
          [Send ch (Text (msg_bad_interval +:+ Py.nl
                          +:+ usage SetWatchIntervalCommand))]))
  ∧ result count_run = Ok (Returns None)
  ∧ (n < 3 →
       player_sbn_count (final count_run) = 3
       ∧ Send ch coercion_3 ∈ trace count_run)
  ∧ (3 <= n →
       player_sbn_count (final count_run) = n
       ∧ Send ch coercion_3 ∉ trace count_run).
Proof.
  intros Hargs Hint. cbv zeta. split; [|split].
  - intros Hdec.
    rewrite (set_interval_dispatch env ch srv c args Hargs Hdec).
    destruct (execute_cmd_coercion env
                (from ch srv ("/set interval " +:+ args)) args n c Hint)
      as (Hr & _ & Hlow & Hhigh & _).
    destruct (then_returns
                (execute_cmd env SetWatchIntervalCommand
                   (from ch srv ("/set interval " +:+ args)) args)
                (Returns None) c) as (Hf & Ht & Hok & _).
    rewrite Hf, Ht. split; [exact (Hok _ Hr)|]. split; assumption.
  - intros Hdec. exact (set_interval_refused env ch srv c args Hargs Hdec).
  - rewrite (set_player_count_dispatch env ch srv c args Hargs).
    destruct (execute_cmd_coercion env
                (from ch srv ("/set player_count " +:+ args)) args n c Hint)
      as (_ & Hr & _ & _ & Hlow & Hhigh).
    destruct (then_returns
                (execute_cmd env SetPlayerSbnCountCommand
                   (from ch srv ("/set player_count " +:+ args)) args)
                (Returns None) c) as (Hf & Ht & Hok & _).
    rewrite Hf, Ht. split; [exact (Hok _ Hr)|]. split; assumption.
Qed.

Lemma minimum_coercion_witness :
  watch_interval
    (final (CommandManager_execute world_a1 (said "/set interval 10")
              stopped)) = PyInt 30
  ∧ Send general coercion_30
    ∈ trace (CommandManager_execute world_a1 (said "/set interval 10")
               stopped)
  ∧ player_sbn_count
      (final (CommandManager_execute world_a1 (said "/set player_count 10")
                stopped)) = 10.
Proof.
  destruct (minimum_coercion world_a1 "10" 10 general 7 stopped
              eq_refl eq_refl) as (Hinterval & _ & _ & _ & Hcount).
  destruct (Hinterval eq_refl) as (_ & Hlow & _).
  destruct Hlow as [Hstored Hnotice]; [lia|].
  destruct Hcount as [Hkept _]; [lia|].
  split; [exact Hstored|]. split; [exact Hnotice | exact Hkept].
Defined.

(** * Further properties of the code *)

(** ** The dispatcher (lines 205-230) *)

Lemma is_call_self k rest : is_call k (cmd k +:+ rest) = true.
Proof. apply prefix_append. Qed.

Lemma starts_with_slash k rest : Py.startswith (cmd k +:+ rest) "/" = true.
Proof. destruct k; reflexivity. Qed.

(** No command name is the beginning of a message that begins with another
    command's name: the search of lines 220-223 stops at the command
    itself. *)
Lemma find_by_name k rest :
  List.find (λ k', is_call k' (cmd k +:+ rest)) cmd_list = Some k.
Proof.
  pose proof (is_call_self k rest) as Hself.
  destruct k; unfold cmd_list;
    repeat
      (match goal with
       | |- List.find ?f (?e :: ?l) = _ =>
           change (List.find f (e :: l))
             with (if f e then Some e else List.find f l);
           cbv beta
       end;
       first [ rewrite Hself; reflexivity
             | match goal with
               | |- (if ?b then _ else _) = _ => change b with false; cbv iota
               end ]).
Qed.

Lemma dispatch_found env k rest ch srv c :
  CommandManager_execute env (from ch srv (cmd k +:+ rest)) c
  = execute env k (from ch srv (cmd k +:+ rest)) c.
Proof.
  apply CommandManager_execute_found;
    [apply starts_with_slash | apply find_by_name].
Qed.

(** X1. A message that begins with the name of a command, whatever follows
    the name, is handed to that command and to no other: no command of the
    list shadows another. *)
Theorem dispatch_by_name (env : Env) (k : Command) (rest : string)
    (ch : Channel) (srv : N) (c : ASWDConfig) :
  List.find (λ k', is_call k' (cmd k +:+ rest)) cmd_list = Some k
  ∧ CommandManager_execute env (from ch srv (cmd k +:+ rest)) c
    = execute env k (from ch srv (cmd k +:+ rest)) c.
Proof. split; [apply find_by_name | apply dispatch_found]. Qed.

Lemma find_none {A} (f : A → bool) (l : list A) :
  (∀ x, f x = false) → List.find f l = None.
Proof.
  intros H. induction l as [|x l IH]; simpl; [reflexivity|].
  rewrite H. exact IH.
Qed.

(** X2. A message that begins with no command name changes nothing and is
    answered [False]: silently when it does not begin with a slash, with
    the invalid-command text and the usage line of the help command when it
    does. *)
Theorem unmatched_message (env : Env) (message : Message) (c : ASWDConfig) :
  (∀ k, is_call k (content message) = false) →
  CommandManager_execute env message c
  = (Ok (Returns (Some false)), c,
     if Py.startswith (content message) "/"
     then [Send (channel message)
             (Text (msg_invalid +:+ Py.nl +:+ usage HelpCommand))]
     else []).
Proof.
  intros Hnone. unfold CommandManager_execute.
  destruct (Py.startswith (content message) "/"); [|reflexivity].
  cbn [negb]. rewrite (find_none _ _ Hnone). reflexivity.
Qed.

Lemma unmatched_message_witness :
  CommandManager_execute world_a1 (said "hello") stopped
  = (Ok (Returns (Some false)), stopped, [])
  ∧ CommandManager_execute world_a1 (said "/watch") stopped
    = (Ok (Returns (Some false)), stopped,
       [Send general (Text (msg_invalid +:+ Py.nl +:+ usage HelpCommand))]).
Proof.
  split.
  - apply (unmatched_message world_a1 (said "hello") stopped).
    intros k. destruct k; reflexivity.
  - apply (unmatched_message world_a1 (said "/watch") stopped).
    intros k. destruct k; reflexivity.
Defined.

(** X3. The global help cannot be shown through the dispatcher: a message
    that begins with the help command's name reaches [HelpCommand.execute],
    whose two parameters the one-argument call of line 230 cannot bind; the
    handler ends with a [TypeError], nothing is sent and nothing changes. *)
Theorem help_command_raises (env : Env) (rest : string) (ch : Channel)
    (srv : N) (c : ASWDConfig) :
  CommandManager_execute env (from ch srv ("/?" +:+ rest)) c
  = (Raise TypeError, c, []).
Proof. exact (dispatch_found env HelpCommand rest ch srv c). Qed.

(** X4. Every message that begins with the start command's name starts the
    watch, whatever follows the name (so also the help request
    ["/start /?"]): the overriding [execute] validates nothing. *)
Theorem start_with_any_suffix (env : Env) (rest : string) (ch : Channel)
    (srv : N) (c : ASWDConfig) :
  CommandManager_execute env (from ch srv ("/start" +:+ rest)) c
  = (Ok (Loops (from ch srv ("/start" +:+ rest))),
     set_is_watch_started true c, [Send ch msg_started]).
Proof. exact (dispatch_found env StartCommand rest ch srv c). Qed.

(** ** [Command.execute] (lines 104-131) *)

(** X5. When [Command.execute] answers [False], the command was not
    executed: the configuration is as before, and exactly one message went
    out, to the channel of the request, made of a complaint, a line break
    and the usage text of the command. *)
Theorem rejected_changes_nothing (env : Env) (k : Command)
    (message : Message) (c : ASWDConfig) :
  result (Command_execute env k message c) = Ok (Some false) →
  final (Command_execute env k message c) = c
  ∧ ∃ complaint,
      trace (Command_execute env k message c)
      = [Send (channel message)
           (Text (complaint +:+ Py.nl +:+ usage k))].
Proof.
  assert (Hcases :
    (∃ complaint,
       Command_execute env k message c
       = (Ok (Some false), c,
          [Send (channel message) (Text (complaint +:+ Py.nl +:+ usage k))]))
    ∨ result (Command_execute env k message c) ≠ Ok (Some false)).
  { unfold Command_execute. cbn [is_cmd_help].
    destruct (is_valid k message); cbn [negb].
    - unfold bind, config, ret.
      destruct (valid_custom env c k message _) as [valid_msg|].
      + destruct (Py.truthy valid_msg).
        * left. exists valid_msg. reflexivity.
        * right.
          destruct (execute_cmd env k message _ c) as [[[b|e] c1] t1];
            unfold result; simpl; discriminate.
      + right.
        destruct (execute_cmd env k message _ c) as [[[b|e] c1] t1];
          unfold result; simpl; discriminate.
    - left. exists msg_invalid. reflexivity. }
  intros Hres. destruct Hcases as [[complaint E] | Hne]; [|contradiction].
  rewrite E. split; [reflexivity|]. exists complaint. reflexivity.
Qed.

Lemma rejected_changes_nothing_witness :
  final (Command_execute world_a1 SetWatchWorldCommand
           (said "/set world ASIA") (cfg watching)) = cfg watching.
Proof.
  apply (rejected_changes_nothing world_a1 SetWatchWorldCommand
           (said "/set world ASIA") (cfg watching)).
  vm_compute. reflexivity.
Defined.

Lemma append_eq_self (a rest : string) : a +:+ rest = a → rest = EmptyString.
Proof.
  induction a as [|ch a IH].
  - intros H. exact H.
  - change (String ch (a +:+ rest) = String ch a → rest = EmptyString).
    intros H. inversion H. auto.
Qed.

(** X6. A command that takes no argument is only executed when the message
    is exactly its name: with anything after the name, be it one blank,
    [/stop], [/list bl] and [/status] are answered with the
    invalid-command text and their usage, and nothing changes (the watch
    is not stopped). *)
Theorem trailing_text_rejected (env : Env) (k : Command) (rest : string)
    (ch : Channel) (srv : N) (c : ASWDConfig) :
  has_args k = false →
  inherits_execute k = true →
  rest ≠ EmptyString →
  CommandManager_execute env (from ch srv (cmd k +:+ rest)) c
  = (Ok (Returns (Some false)), c,
     [Send ch (Text (msg_invalid +:+ Py.nl +:+ usage k))]).
Proof.
  intros Hno Hinh Hrest. rewrite dispatch_found.
  assert (Hv : is_valid k (from ch srv (cmd k +:+ rest)) = false).
  { unfold is_valid. rewrite Hno. cbn [content from].
    apply String.eqb_neq. intros H. apply Hrest.
    exact (append_eq_self _ _ H). }
  destruct k; try discriminate Hno; try discriminate Hinh;
    unfold execute, bind, Command_execute; cbn [is_cmd_help];
    rewrite Hv; reflexivity.
Qed.

Lemma trailing_text_rejected_witness :
  CommandManager_execute world_a1 (said "/stop ") (cfg watching)
  = (Ok (Returns (Some false)), cfg watching,
     [Send general (Text (msg_invalid +:+ Py.nl +:+ usage StopCommand))])
  ∧ is_watch_started (cfg watching) = true.
Proof.
  split; [|reflexivity].
  apply (trailing_text_rejected world_a1 StopCommand " " general 7
           (cfg watching)); [reflexivity | reflexivity | discriminate].
Defined.

(** X7. Every command that takes an argument rejects the message that is
    only its name, and the one that is its name and one blank: the
    invalid-command text and the usage are sent and nothing changes. *)
Theorem missing_argument_rejected (env : Env) (k : Command) (ch : Channel)
    (srv : N) (c : ASWDConfig) :
  has_args k = true →
  CommandManager_execute env (from ch srv (cmd k)) c
  = (Ok (Returns (Some false)), c,
     [Send ch (Text (msg_invalid +:+ Py.nl +:+ usage k))])
  ∧ CommandManager_execute env (from ch srv (cmd k +:+ " ")) c
    = (Ok (Returns (Some false)), c,
       [Send ch (Text (msg_invalid +:+ Py.nl +:+ usage k))]).
Proof.
  intros Hargs. destruct k; try discriminate Hargs; split; reflexivity.
Qed.

Lemma missing_argument_rejected_witness :
  CommandManager_execute world_a1 (said "/set interval") stopped
  = (Ok (Returns (Some false)), stopped,
     [Send general
        (Text (msg_invalid +:+ Py.nl +:+ usage SetWatchIntervalCommand))]).
Proof.
  apply (missing_argument_rejected world_a1 SetWatchIntervalCommand general 7
           stopped).
  reflexivity.
Defined.

(** [Command.execute] on a message that passes [is_valid] and is refused by
    [valid_custom]. *)
Lemma Command_execute_refused env k message args valid_msg c :
  is_valid k message = true →
  Py.slice_from (String.length (cmd k) + 1) (content message) = args →
  valid_custom env c k message args = Some valid_msg →
  Py.truthy valid_msg = true →
  Command_execute env k message c
  = (Ok (Some false), c,
     [Send (channel message) (Text (valid_msg +:+ Py.nl +:+ usage k))]).
Proof.
  intros Hvalid Hargs Hcustom Htruthy. unfold Command_execute.
  cbn [is_cmd_help]. rewrite Hvalid, Hargs. cbn [negb].
  unfold bind at 1. unfold config at 1. rewrite Hcustom, Htruthy.
  reflexivity.
Qed.

(** A pass with a number as interval keeps the two loop settings. *)
Lemma resume_settings env message c n :
  watch_interval c = PyInt n →
  same_settings c (final (resume env message c)).
Proof.
  intros Hn.
  unfold resume, iteration, fetch, sleep_watch_interval, try_except, bind,
    config, emit, lift, send_message, log_traceback, when, ret, raise.
  destruct (is_watch_started c); [|apply same_settings_refl]. simpl.
  destruct (sleep_overflows env n) eqn:Hov;
    (destruct (requests_get env (url c)) as [body | e]; simpl;
     [destruct (Py.truthy body); simpl;
      [destruct (process_outcome env body c) as [(e & Hp & _) | [Hr Hs]];
       [rewrite Hp; simpl
       |destruct (process env body c) as [[r c1] t1];
        unfold result, final in *; simpl in *; subst r; simpl;
        destruct Hs as [Hi Hf]; rewrite Hi]
      |]
     |]);
    repeat (progress (rewrite ?Hn, ?Hov; simpl));
    try apply same_settings_refl; split; assumption.
Qed.

(** ** Stopping (lines 281, 385 and 400-403) *)

(** X8. [/stop] clears the started flag and answers with the watch-ended
    notice, leaving every loop coroutine in place; a coroutine ends when it
    next wakes, and ends silently: it sends nothing, fetches nothing and
    changes nothing. *)
Theorem stop_ends_loop_at_wake (env env' : Env) (ch : Channel) (srv : N)
    (s : System) (i : nat) (message : Message) :
  loops s !! i = Some message →
  let s1 := on_message env (from ch srv "/stop") s in
  cfg s1 = set_is_watch_started false (cfg s)
  ∧ loops s1 = loops s
  ∧ events s1 = events s ++ [Send ch (Text "監視終了.")]
  ∧ loops (on_wake env' i s1) = delete i (loops s)
  ∧ events (on_wake env' i s1) = events s1
  ∧ cfg (on_wake env' i s1) = cfg s1.
Proof.
  intros Hi s1.
  assert (E1 : s1 = {| cfg := set_is_watch_started false (cfg s);
                       loops := loops s;
                       events := events s ++ [Send ch (Text "監視終了.")] |})
    by reflexivity.
  rewrite E1. cbn [cfg loops events].
  split; [reflexivity|]. split; [reflexivity|]. split; [reflexivity|].
  unfold on_wake. cbn [cfg loops events]. rewrite Hi.
  unfold resume, bind, config, ret. cbn [is_watch_started set_is_watch_started].
  cbn [cfg loops events]. rewrite app_nil_r.
  split; [reflexivity|]. split; reflexivity.
Qed.

Lemma stop_ends_loop_at_wake_witness :
  loops watching = [said "/start"]
  ∧ loops (on_wake world_a1 0 (on_message world_a1 (said "/stop") watching))
    = []
  ∧ events (on_wake world_a1 0
              (on_message world_a1 (said "/stop") watching))
    = events watching ++ [Send general (Text "監視終了.")].
Proof.
  assert (H : loops watching !! 0%nat = Some (said "/start"))
    by reflexivity.
  destruct (stop_ends_loop_at_wake world_a1 world_a1 general 7 watching 0
              (said "/start") H) as (_ & _ & He & Hl & He' & _).
  split; [reflexivity|]. split.
  - exact Hl.
  - rewrite <- He. exact He'.
Defined.

(** X9. The started flag is all that a loop coroutine looks at: when
    [/start] follows [/stop] before a coroutine has woken, that coroutine
    finds the flag set again and goes on, beside the coroutine of the new
    start (the interval being an integer that the sleep accepts, in the
    pass of the new start and in the pass of the woken coroutine). *)
Theorem start_after_stop_revives_loop (env env' : Env) (ch : Channel)
    (srv : N) (s : System) (n : Z) (i : nat) (message : Message) :
  watch_interval (cfg s) = PyInt n →
  sleep_overflows env n = false →
  sleep_overflows env' n = false →
  loops s !! i = Some message →
  let s2 := on_message env (from ch srv "/start")
              (on_message env (from ch srv "/stop") s) in
  loops s2 = loops s ++ [from ch srv "/start"]
  ∧ is_watch_started (cfg s2) = true
  ∧ loops (on_wake env' i s2) = loops s2.
Proof.
  intros Hn Hov Hov' Hi s2.
  set (s1 := on_message env (from ch srv "/stop") s) in *.
  assert (E1 : s1 = {| cfg := set_is_watch_started false (cfg s);
                       loops := loops s;
                       events := events s ++ [Send ch (Text "監視終了.")] |})
    by reflexivity.
  assert (Hn1 : watch_interval (cfg s1) = PyInt n) by (rewrite E1; exact Hn).
  assert (Hl2 : loops s2 = loops s ++ [from ch srv "/start"]).
  { subst s2. unfold from.
    rewrite (start_adds_loop env ch srv s1 n Hn1 Hov).
    rewrite E1. reflexivity. }
  assert (Hc2 : watch_interval (cfg s2) = PyInt n
                ∧ is_watch_started (cfg s2) = true).
  { subst s2. unfold on_message, bind, from. rewrite start_ignores_flag.
    pose proof (resume_settings env
                  {| content := "/start"; channel := ch; server := srv |}
                  (set_is_watch_started true (cfg s1)) n Hn1) as [Hw Hf].
    destruct (resume env _ (set_is_watch_started true (cfg s1)))
      as [[r c1] t1].
    unfold final in Hw, Hf. cbn [fst snd cfg] in *.
    split; [rewrite Hw; exact Hn1 | rewrite Hf; reflexivity]. }
  destruct Hc2 as [Hw2 Hf2].
  split; [exact Hl2|]. split; [exact Hf2|].
  unfold on_wake. rewrite Hl2.
  rewrite (lookup_app_l_Some _ _ _ _ Hi).
  pose proof (numeric_interval_stays_alive env' message (cfg s2) n Hf2 Hw2
                Hov') as Hr.
  destruct (resume env' message (cfg s2)) as [[r c1] t1].
  unfold result in Hr. simpl in Hr. subst r. reflexivity.
Qed.

Lemma start_after_stop_revives_loop_witness :
  length (loops (on_wake world_a1 0
                   (on_message world_a1 (said "/start")
                      (on_message world_a1 (said "/stop") watching))))
  = 2%nat.
Proof.
  assert (Hn : watch_interval (cfg watching) = PyInt 60) by reflexivity.
  assert (Hov : sleep_overflows world_a1 60 = false) by reflexivity.
  assert (Hi : loops watching !! 0%nat = Some (said "/start"))
    by reflexivity.
  destruct (start_after_stop_revives_loop world_a1 world_a1 general 7
              watching 60 0 (said "/start") Hn Hov Hov Hi) as (Hl & _ & Hw).
  unfold said, from in *. rewrite Hw, Hl. reflexivity.
Defined.

(** ** Validation of the arguments *)

(** X10. [/del server] refuses every non-empty argument whose [len] is not
    2, before it looks at the list of server names or at the existing
    channels: no channel is deleted, nothing changes, and the answer is the
    server-name complaint with the usage (so the channel of a server with a
    three-character name, once added, cannot be deleted by this command). *)
Theorem del_server_two_characters (env : Env) (args : string) (ch : Channel)
    (srv : N) (c : ASWDConfig) :
  Py.truthy args = true →
  str_len env args ≠ 2 →
  CommandManager_execute env (from ch srv ("/del server " +:+ args)) c
  = (Ok (Returns (Some false)), c,
     [Send ch (Text (msg_bad_server_name +:+ Py.nl
                     +:+ usage DelServerCommand))]).
Proof.
  intros Hargs Hlen.
  rewrite (dispatch_found env DelServerCommand (" " +:+ args)).
  unfold execute, bind.
  rewrite (Command_execute_refused env DelServerCommand _ args
             msg_bad_server_name); try reflexivity.
  - apply (has_args_valid DelServerCommand); [reflexivity | exact Hargs].
  - cbn [valid_custom]. rewrite Hargs. cbn [negb orb].
    apply Z.eqb_neq in Hlen. rewrite Hlen. reflexivity.
Qed.

Lemma del_server_two_characters_witness :
  Py.contains (SERVER_NAMES world_a10) (str_upper world_a10 "A10") = true
  ∧ exists_channel world_a10 7 "A10" = Some a10
  ∧ CommandManager_execute world_a10 (said "/del server A10") stopped
    = (Ok (Returns (Some false)), stopped,
       [Send general (Text (msg_bad_server_name +:+ Py.nl
                            +:+ usage DelServerCommand))]).
Proof.
  split; [reflexivity|]. split; [reflexivity|].
  apply (del_server_two_characters world_a10 "A10" general 7 stopped);
    [reflexivity | discriminate].
Defined.

(** X11. [/add server] with a non-empty argument does one of three things,
    by the upper-cased argument: it refuses a name that is not in the list
    of server names; it refuses a name whose channel exists; otherwise it
    creates the channel under the upper-cased name and announces it.  The
    configuration is never changed. *)
Theorem add_server_outcomes (env : Env) (args : string) (ch : Channel)
    (srv : N) (c : ASWDConfig) :
  Py.truthy args = true →
  CommandManager_execute env (from ch srv ("/add server " +:+ args)) c
  = if negb (Py.contains (SERVER_NAMES env) (str_upper env args))
    then (Ok (Returns (Some false)), c,
          [Send ch (Text (msg_bad_server_name +:+ Py.nl
                          +:+ usage AddServerCommand))])
    else match exists_channel env srv args with
         | Some _ =>
             (Ok (Returns (Some false)), c,
              [Send ch (Text ("対象サーバは既に監視対象です." +:+ Py.nl
                              +:+ usage AddServerCommand))])
         | None =>
             (Ok (Returns None), c,
              [CreateChannel srv (str_upper env args);
               Send ch (Format "{}チャンネル追加. 監視情報はそこに出力します."
                          [PyStr (str_upper env args)])])
         end.
Proof.
  intros Hargs.
  assert (Hvalid : is_valid AddServerCommand
                     (from ch srv ("/add server " +:+ args)) = true)
    by (apply (has_args_valid AddServerCommand); [reflexivity | exact Hargs]).
  destruct (Py.contains (SERVER_NAMES env) (str_upper env args)) eqn:Hname;
    cbn [negb].
  - destruct (exists_channel env srv args) as [existing|] eqn:Hch.
    + rewrite (dispatch_found env AddServerCommand (" " +:+ args)).
      unfold execute, bind.
      rewrite (Command_execute_refused env AddServerCommand _ args
                 "対象サーバは既に監視対象です."); try reflexivity;
        [exact Hvalid|].
      cbn [valid_custom server from]. rewrite Hargs, Hname, Hch. reflexivity.
    + rewrite (dispatch_valid env _ AddServerCommand args);
        try reflexivity; [exact Hvalid|].
      cbn [valid_custom server from]. rewrite Hargs, Hname, Hch. reflexivity.
  - rewrite (dispatch_found env AddServerCommand (" " +:+ args)).
    unfold execute, bind.
    rewrite (Command_execute_refused env AddServerCommand _ args
               msg_bad_server_name); try reflexivity; [exact Hvalid|].
    cbn [valid_custom]. rewrite Hargs, Hname. reflexivity.
Qed.

Lemma add_server_outcomes_witness :
  CommandManager_execute world_a1 (said "/add server a2") stopped
  = (Ok (Returns None), stopped,
     [CreateChannel 7 "A2";
      Send general (Format "{}チャンネル追加. 監視情報はそこに出力します."
                      [PyStr "A2"])]).
Proof.
  apply (add_server_outcomes world_a1 "a2" general 7 stopped). reflexivity.
Defined.

(** X12. [/set interval] never fails and never leaves anything but a number
    of at least 30 in the interval field, provided [int] reads the argument
    whenever [isdecimal] accepts it (as the two built-ins do): the handler
    returns, and the configuration is either unchanged (the argument was
    missing or not decimal) or differs only in the interval, now an integer
    [n] with [30 <= n]. *)
Theorem set_interval_outcomes (env : Env) (args : string) (ch : Channel)
    (srv : N) (c : ASWDConfig) :
  (str_isdecimal env args = true → is_Some (str_int env args)) →
  let run :=
    CommandManager_execute env (from ch srv ("/set interval " +:+ args)) c in
  (∃ v, result run = Ok (Returns v))
  ∧ (final run = c
     ∨ ∃ n, 30 <= n ∧ final run = set_watch_interval (PyInt n) c).
Proof.
  intros Hreads. cbv zeta. destruct (Py.truthy args) eqn:Hargs.
  - destruct (str_isdecimal env args) eqn:Hdec.
    + destruct (Hreads eq_refl) as [n Hint].
      rewrite (set_interval_dispatch env ch srv c args Hargs Hdec).
      unfold execute_cmd, int_of_args, bind, modify, send_message, emit,
        ret. rewrite Hint. unfold result, final.
      destruct (n <? 30) eqn:E; rewrite ?Z.ltb_lt, ?Z.ltb_ge in E; simpl.
      * split; [eexists; reflexivity|]. right. exists 30.
        split; [lia | reflexivity].
      * split; [eexists; reflexivity|]. right. exists n.
        split; [lia | reflexivity].
    + rewrite (set_interval_refused env ch srv c args Hargs Hdec).
      split; [eexists; reflexivity | left; reflexivity].
  - destruct args; [|discriminate].
    split; [eexists; reflexivity | left; reflexivity].
Qed.

Lemma set_interval_outcomes_witness :
  final (CommandManager_execute world_a1 (said "/set interval 45") stopped)
  = set_watch_interval (PyInt 45) stopped
  ∧ (final (CommandManager_execute world_a1 (said "/set interval 45")
              stopped) = stopped
     ∨ ∃ n, 30 <= n
            ∧ final (CommandManager_execute world_a1
                       (said "/set interval 45") stopped)
              = set_watch_interval (PyInt n) stopped).
Proof.
  split; [reflexivity|].
  apply (set_interval_outcomes world_a1 "45" general 7 stopped).
  intros _. exists 45. reflexivity.
Defined.

(** ** Commands that only report *)

Lemma final_after_read {A} (o : Result A * ASWDConfig * list Event) :
  final (let '(r, c2, t2) := o in (r, c2, [] ++ t2)) = final o.
Proof. destruct o as [[r c2] t2]. reflexivity. Qed.

Lemma execute_cmd_read_only env k message args c :
  read_only k = true → final (execute_cmd env k message args c) = c.
Proof.
  intros Hk. destruct k; try discriminate Hk; try reflexivity.
  unfold execute_cmd, bind.
  destruct (exists_channel env (server message) args); reflexivity.
Qed.

(** X13. The commands that list the blacklist, show the status, add or
    delete a server channel, and the greeting command assign no field of
    the configuration: whatever the message and whether it is accepted,
    refused or fails, the configuration after [Command.execute] is the one
    before. *)
Theorem reporting_commands_change_nothing (env : Env) (k : Command)
    (message : Message) (c : ASWDConfig) :
  read_only k = true →
  final (Command_execute env k message c) = c.
Proof.
  intros Hk.
  assert (Hrun : ∀ args,
            final ((execute_cmd env k message args ;;
                    ret (None : option bool)) c) = c).
  { intros args. unfold bind, ret.
    pose proof (execute_cmd_read_only env k message args c Hk) as Hf.
    destruct (execute_cmd env k message args c) as [[[b|e] c1] t1];
      exact Hf. }
  specialize (Hrun (Py.slice_from (String.length (cmd k) + 1)
                      (content message))).
  unfold Command_execute. cbn [is_cmd_help].
  destruct (is_valid k message); cbn [negb]; [|reflexivity].
  unfold bind at 1. unfold config at 1.
  destruct (valid_custom env c k message _) as [valid_msg|];
    [destruct (Py.truthy valid_msg); [reflexivity|] |];
    rewrite final_after_read; exact Hrun.
Qed.

Lemma reporting_commands_change_nothing_witness :
  final (Command_execute world_a1 StatusCommand (said "/status")
           (cfg watching_world_set)) = cfg watching_world_set.
Proof.
  apply (reporting_commands_change_nothing world_a1 StatusCommand
           (said "/status") (cfg watching_world_set)).
  reflexivity.
Defined.

(** ** Collected data (lines 306-332) *)

Lemma collect_snoc last grids g :
  collect last (grids ++ [g])
  = <[grid g := entry_of last g]> (collect last grids).
Proof.
  unfold collect. rewrite foldl_app. simpl. apply collect_grid_insert.
Qed.

Lemma latest_grid_snoc s grids g :
  latest_grid s (grids ++ [g])
  = if String.eqb (grid g) s then Some g else latest_grid s grids.
Proof. unfold latest_grid. rewrite rev_app_distr. reflexivity. Qed.

(** X14. The collected data has an entry exactly for the server names that
    occur in the feed.  When a name occurs more than once, the last grid of
    that name decides: the entry carries the name, the number of that
    grid's players, the difference to the previous count of that name (0
    without one), and an empty match list. *)
Theorem collect_lookup (last : gmap string ServerInfo.t)
    (grids : list Grid) (s : string) :
  collect last grids !! s
  = match latest_grid s grids with
    | None => None
    | Some g =>
        Some {| ServerInfo.server_name := s;
                ServerInfo.player_count := Z.of_nat (length (players g));
                ServerInfo.player_sbn_count :=
                  match last !! s with
                  | Some p =>
                      Z.of_nat (length (players g)) - ServerInfo.player_count p
                  | None => 0
                  end;
                ServerInfo.blacklist_players := [] |}
    end.
Proof.
  induction grids as [|g grids IH] using rev_ind.
  - reflexivity.
  - rewrite collect_snoc, latest_grid_snoc.
    destruct (String.eqb (grid g) s) eqn:E.
    + apply String.eqb_eq in E. subst s. rewrite lookup_insert_eq.
      reflexivity.
    + apply String.eqb_neq in E. rewrite lookup_insert_ne by exact E.
      exact IH.
Qed.

(** ** One pass of the loop, continued (lines 282-384) *)

(** X15. A pass whose request raises, the interval being a number [n]
    that the sleep accepts: the exception is written to the log, the
    connection-failed notice goes to the channel of the start message, the
    pass sleeps [n] seconds once and does nothing else; the configuration is
    as before and the coroutine is still in its loop. *)
Theorem failed_request_tick (env : Env) (message : Message) (c : ASWDConfig)
    (n : Z) (e : Exn) :
  is_watch_started c = true →
  watch_interval c = PyInt n →
  sleep_overflows env n = false →
  requests_get env (url c) = Raise e →
  resume env message c
  = (Ok true, c,
     [Get (url c); Traceback e; Send (channel message) msg_connect_failed;
      Sleep n]).
Proof.
  intros Hs Hn Hov Hget.
  unfold resume, iteration, fetch, sleep_watch_interval, try_except, bind,
    config, emit, lift, send_message, log_traceback, when, ret.
  rewrite Hs, Hget. simpl. rewrite Hn, Hov. reflexivity.
Qed.

Lemma failed_request_tick_witness :
  resume (world (Raise RequestError) (Ok feed)) (said "/start") (cfg watching)
  = (Ok true, cfg watching,
     [Get "http://atlas.example/grids"; Traceback RequestError;
      Send general msg_connect_failed; Sleep 60]).
Proof.
  apply (failed_request_tick (world (Raise RequestError) (Ok feed))
           (said "/start") (cfg watching) 60 RequestError);
    reflexivity.
Defined.

(** ** The notifications of a whole pass (lines 338-373) *)

Lemma times_app kind t1 t2 :
  times kind (t1 ++ t2) = (times kind t1 + times kind t2)%nat.
Proof. unfold times. rewrite filter_app, length_app. reflexivity. Qed.

Lemma names_only_id c :
  set_blacklist_notice_server_names (blacklist_notice_server_names c) c = c.
Proof. destruct c. reflexivity. Qed.

(** Processing a channel assigns at most the list of alerted servers. *)
Lemma notify_channel_frame timestr servers_info tgt_channel c :
  final (notify_channel timestr servers_info tgt_channel c)
  = set_blacklist_notice_server_names
      (blacklist_notice_server_names
         (final (notify_channel timestr servers_info tgt_channel c))) c.
Proof.
  destruct (servers_info !! Py.upper (name tgt_channel)) as [i|] eqn:E.
  - rewrite (notify_channel_run _ _ _ _ c E). cbv zeta. unfold final.
    cbn [fst snd].
    repeat match goal with |- context [if ?b then _ else _] => destruct b end;
      try reflexivity; symmetry; apply names_only_id.
  - unfold notify_channel. rewrite E. unfold final. simpl.
    symmetry. apply names_only_id.
Qed.

(** The loop over the channels, one channel at a time. *)
Lemma for_each_notify_cons timestr servers_info ch channels c :
  trace (for_each (ch :: channels) (notify_channel timestr servers_info) c)
  = trace (notify_channel timestr servers_info ch c)
    ++ trace (for_each channels (notify_channel timestr servers_info)
                (final (notify_channel timestr servers_info ch c)))
  ∧ final (for_each (ch :: channels) (notify_channel timestr servers_info) c)
    = final (for_each channels (notify_channel timestr servers_info)
               (final (notify_channel timestr servers_info ch c))).
Proof.
  simpl. unfold bind.
  destruct (notify_channel_ok timestr servers_info ch c) as [Hr _].
  destruct (notify_channel timestr servers_info ch c) as [[r c1] t1].
  unfold result in Hr. simpl in Hr. subst r.
  unfold trace, final. cbn [fst snd].
  destruct (for_each channels (notify_channel timestr servers_info) c1)
    as [[r2 c2] t2].
  split; reflexivity.
Qed.

Lemma for_each_notify_frame timestr servers_info channels : ∀ c,
  final (for_each channels (notify_channel timestr servers_info) c)
  = set_blacklist_notice_server_names
      (blacklist_notice_server_names
         (final (for_each channels (notify_channel timestr servers_info) c)))
      c.
Proof.
  induction channels as [|ch channels IH]; intros c.
  - simpl. unfold final, ret. simpl. symmetry. apply names_only_id.
  - destruct (for_each_notify_cons timestr servers_info ch channels c)
      as [_ Hf].
    rewrite Hf. rewrite IH at 1.
    rewrite (notify_channel_frame timestr servers_info ch c) at 2.
    reflexivity.
Qed.

Lemma known_counts timestr servers_info ch c :
  times is_report (trace (notify_channel timestr servers_info ch c))
  = (if known servers_info ch then 1 else 0)%nat
  ∧ times is_no_data (trace (notify_channel timestr servers_info ch c))
    = (if known servers_info ch then 0 else 1)%nat
  ∧ times is_surge_alert (trace (notify_channel timestr servers_info ch c))
    = (if surging (player_sbn_count c) servers_info ch then 1 else 0)%nat.
Proof.
  unfold known, surging.
  destruct (servers_info !! Py.upper (name ch)) as [i|] eqn:E.
  - rewrite bool_decide_eq_true_2 by eauto.
    rewrite (notify_channel_run _ _ _ _ c E). cbv zeta. unfold trace.
    cbn [snd].
    repeat match goal with |- context [if ?b then _ else _] => destruct b end;
      repeat split; reflexivity.
  - rewrite bool_decide_eq_false_2 by (intros [x Hx]; discriminate).
    unfold notify_channel. rewrite E. repeat split; reflexivity.
Qed.



Lemma surge_count timestr servers_info channels : ∀ c,
  times is_surge_alert
    (trace (for_each channels (notify_channel timestr servers_info) c))
  = length (filter (λ ch, surging (player_sbn_count c) servers_info ch = true)
              channels).
Proof.
  induction channels as [|ch channels IH]; intros c.
  - reflexivity.
  - destruct (for_each_notify_cons timestr servers_info ch channels c)
      as [Ht _].
    rewrite Ht, times_app.
    destruct (known_counts timestr servers_info ch c) as (_ & _ & Hs).
    rewrite Hs, IH.
    assert (player_sbn_count
              (final (notify_channel timestr servers_info ch c))
            = player_sbn_count c) as ->
      by (rewrite notify_channel_frame; reflexivity).
    rewrite filter_cons.
    destruct (surging (player_sbn_count c) servers_info ch).
    + rewrite decide_True by reflexivity. reflexivity.
    + rewrite decide_False by discriminate. reflexivity.
Qed.


(** Lines 302-376 when the body decodes. *)
Lemma process_run_ok env body grids c :
  jsons_loads env body = Ok grids →
  process env body c
  = (Ok tt,
     set_last_servers_info (collect (last_servers_info c) grids)
       (final (for_each (get_channels env)
                 (notify_channel (timestr env)
                    (collect (last_servers_info c) grids)) c)),
     trace (for_each (get_channels env)
              (notify_channel (timestr env)
                 (collect (last_servers_info c) grids)) c)).
Proof.
  intros Hloads. unfold process, bind, lift, config, modify.
  rewrite Hloads.
  destruct (for_each_notify_ok (timestr env)
              (collect (last_servers_info c) grids) (get_channels env) c)
    as [Hr _].
  destruct (for_each (get_channels env) _ c) as [[r c1] t1].
  unfold result in Hr. simpl in Hr. subst r.
  unfold final, trace. simpl. rewrite app_nil_r. reflexivity.
Qed.

Lemma filter_none {A} (P : A → Prop) `{∀ x, Decision (P x)} (l : list A) :
  (∀ x, ¬ P x) → filter P l = [].
Proof.
  intros Hno. induction l as [|x l IH]; [reflexivity|].
  rewrite filter_cons, decide_False by apply Hno. exact IH.
Qed.

(** X18. The first pass after a start with no earlier server data sends no
    surge alert, however many players the servers have, as long as the
    threshold is positive: without a previous count every delta is 0. *)
Theorem first_pass_sends_no_surge_alert (env : Env) (body : string)
    (c : ASWDConfig) :
  last_servers_info c = ∅ →
  0 < player_sbn_count c →
  times is_surge_alert (trace (process env body c)) = 0%nat.
Proof.
  intros Hlast Hpos.
  destruct (jsons_loads env body) as [grids | e] eqn:Hloads.
  - rewrite (process_run_ok env body grids c Hloads). unfold trace at 1.
    cbn [snd]. rewrite surge_count, Hlast.
    rewrite filter_none; [reflexivity|].
    intros ch. unfold surging.
    destruct (collect ∅ grids !! Py.upper (name ch)) as [i|] eqn:E;
      [|discriminate].
    destruct (collect_from_grid _ _ _ _ E) as (g & _ & _ & ->).
    unfold entry_of. cbn [ServerInfo.player_sbn_count].
    rewrite lookup_empty. intros H. apply Z.leb_le in H. lia.
  - unfold process, bind, lift. rewrite Hloads. reflexivity.
Qed.

Lemma first_pass_sends_no_surge_alert_witness :
  length (players grid_a1) = 15%nat
  ∧ times is_surge_alert (trace (process world_a1 "{grids}" stopped))
    = 0%nat.
Proof.
  split; [reflexivity|].
  apply (first_pass_sends_no_surge_alert world_a1 "{grids}" stopped);
    [reflexivity | reflexivity].
Defined.

(** X19. The decoding, collecting and notifying part of a pass either
    fails in the decoder, and then has sent nothing and changed nothing
    (the previous server data is kept), or it ends normally, and then the
    stored server data is the data collected in this pass, also without
    any destination channel, and the only other field that can differ is
    the list of alerted servers. *)
Theorem process_stores_collected_data (env : Env) (body : string)
    (c : ASWDConfig) :
  match jsons_loads env body with
  | Raise e => process env body c = (Raise e, c, [])
  | Ok grids =>
      result (process env body c) = Ok tt
      ∧ last_servers_info (final (process env body c))
        = collect (last_servers_info c) grids
      ∧ final (process env body c)
        = set_last_servers_info (collect (last_servers_info c) grids)
            (set_blacklist_notice_server_names
               (blacklist_notice_server_names (final (process env body c)))
               c)
  end.
Proof.
  destruct (jsons_loads env body) as [grids | e] eqn:Hloads.
  - rewrite (process_run_ok env body grids c Hloads).
    unfold result, final at 1 2 3. cbn [fst snd].
    split; [reflexivity|]. split; [reflexivity|].
    rewrite for_each_notify_frame at 1. reflexivity.
  - unfold process, bind, lift. rewrite Hloads. reflexivity.
Qed.

Lemma notify_channel_no_sleep timestr servers_info ch c :
  times is_sleep (trace (notify_channel timestr servers_info ch c)) = 0%nat.
Proof.
  destruct (servers_info !! Py.upper (name ch)) as [i|] eqn:E.
  - rewrite (notify_channel_run _ _ _ _ c E). cbv zeta. unfold trace.
    cbn [snd].
    repeat match goal with |- context [if ?b then _ else _] => destruct b end;
      reflexivity.
  - unfold notify_channel. rewrite E. reflexivity.
Qed.

Lemma for_each_notify_no_sleep timestr servers_info channels : ∀ c,
  times is_sleep
    (trace (for_each channels (notify_channel timestr servers_info) c))
  = 0%nat.
Proof.
  induction channels as [|ch channels IH]; intros c; [reflexivity|].
  destruct (for_each_notify_cons timestr servers_info ch channels c)
    as [Ht _].
  rewrite Ht, times_app, notify_channel_no_sleep, IH. reflexivity.
Qed.

(** X20. With a number [n] as interval that the sleep accepts, whatever
    the request, the decoder and the channels do in a pass of a running
    watch: the pass does not raise, it begins with the request and ends
    with a sleep of [n] seconds, which is its only sleep, and the started
    flag and the interval are as before; so the coroutine is still in its
    loop with the same settings. *)
Theorem pass_survives_and_sleeps_once (env : Env) (message : Message)
    (c : ASWDConfig) (n : Z) :
  is_watch_started c = true →
  watch_interval c = PyInt n →
  sleep_overflows env n = false →
  result (resume env message c) = Ok true
  ∧ (∃ t, trace (resume env message c) = Get (url c) :: t ++ [Sleep n]
          ∧ times is_sleep t = 0%nat)
  ∧ is_watch_started (final (resume env message c)) = true
  ∧ watch_interval (final (resume env message c)) = PyInt n.
Proof.
  intros Hs Hn Hov.
  split; [exact (numeric_interval_stays_alive env message c n Hs Hn Hov)|].
  split.
  - unfold resume, iteration, fetch, sleep_watch_interval, try_except, bind,
      config, emit, lift, send_message, log_traceback, when, ret.
    rewrite Hs. simpl.
    destruct (requests_get env (url c)) as [body | e]; simpl.
    + destruct (Py.truthy body); simpl.
      * destruct (jsons_loads env body) as [grids | e] eqn:Hloads.
        -- rewrite (process_run_ok env body grids c Hloads). simpl.
           assert (watch_interval
                     (final (for_each (get_channels env)
                               (notify_channel (timestr env)
                                  (collect (last_servers_info c) grids)) c))
                   = PyInt n) as Hw
             by (rewrite for_each_notify_frame; exact Hn).
           rewrite Hw, Hov. unfold trace at 1. simpl.
           exists (trace (for_each (get_channels env)
                            (notify_channel (timestr env)
                               (collect (last_servers_info c) grids)) c)).
           split.
           ++ rewrite ?app_nil_r. reflexivity.
           ++ apply for_each_notify_no_sleep.
        -- unfold process, bind, lift. rewrite Hloads. simpl. rewrite Hn, Hov.
           unfold trace. simpl.
           exists [Traceback e; Send (channel message) msg_continue].
           split; reflexivity.
      * rewrite Hn, Hov. unfold trace. simpl.
        exists [Send (channel message) msg_empty_json]. split; reflexivity.
    + rewrite Hn, Hov. unfold trace. simpl.
      exists [Traceback e; Send (channel message) msg_connect_failed].
      split; reflexivity.
  - destruct (resume_settings env message c n Hn) as [Hw Hf].
    split; [rewrite Hf; exact Hs | rewrite Hw; exact Hn].
Qed.

Lemma pass_survives_and_sleeps_once_witness :
  result (resume (world (Ok "not json") (Raise DecodeError)) (said "/start")
            (cfg watching)) = Ok true.
Proof.
  apply (pass_survives_and_sleeps_once
           (world (Ok "not json") (Raise DecodeError)) (said "/start")
           (cfg watching) 60); reflexivity.
Defined.

(** X27. With an integer as interval that the sleep cannot convert to a
    float, every pass of a running watch ends in an [OverflowError] that no
    handler catches, whatever the request, the decoder and the channels do:
    the sleep of line 384 is outside the handlers, and the sleeps of lines
    291 and 299 raise inside them.  The started flag is still set. *)
Theorem oversized_interval_ends_loop (env : Env) (message : Message)
    (c : ASWDConfig) (n : Z) :
  is_watch_started c = true →
  watch_interval c = PyInt n →
  sleep_overflows env n = true →
  result (resume env message c) = Raise OverflowError
  ∧ is_watch_started (final (resume env message c)) = true.
Proof.
  intros Hs Hn Hov.
  unfold resume, iteration, fetch, sleep_watch_interval, try_except, bind,
    config, emit, lift, send_message, log_traceback, when, ret, raise.
  rewrite Hs. simpl.
  destruct (requests_get env (url c)) as [body | e]; simpl.
  - destruct (Py.truthy body); simpl.
    + destruct (process_outcome env body c) as [(e & Hp & _) | [Hr [Hi Hf]]].
      * rewrite Hp. simpl. rewrite Hn, Hov. split; [reflexivity | exact Hs].
      * destruct (process env body c) as [[r c1] t1].
        unfold result, final in *. simpl in *. subst r. simpl.
        rewrite Hi, Hn, Hov. simpl. split; [reflexivity | congruence].
    + repeat (progress (rewrite ?Hn, ?Hov; simpl)).
      split; [reflexivity | exact Hs].
  - repeat (progress (rewrite ?Hn, ?Hov; simpl)).
    split; [reflexivity | exact Hs].
Qed.

Lemma oversized_interval_ends_loop_witness :
  result (resume world_a1 (said "/start")
            (set_watch_interval (PyInt (2 ^ 1024)) (cfg watching)))
  = Raise OverflowError.
Proof.
  apply (oversized_interval_ends_loop world_a1 (said "/start")
           (set_watch_interval (PyInt (2 ^ 1024)) (cfg watching))
           (2 ^ 1024)); reflexivity.
Defined.

(** ** The world and the blacklist commands *)

(** X21. [/set world] accepts the two spellings "NA" and "EU" only: every
    other non-empty argument, such as the lower-case "na", is answered with
    the world complaint and the usage, and nothing changes. *)
Theorem set_world_rejects_other_arguments (env : Env) (args : string)
    (ch : Channel) (srv : N) (c : ASWDConfig) :
  Py.truthy args = true →
  args ≠ "NA" →
  args ≠ "EU" →
  CommandManager_execute env (from ch srv ("/set world " +:+ args)) c
  = (Ok (Returns (Some false)), c,
     [Send ch (Text (msg_bad_world +:+ Py.nl
                     +:+ usage SetWatchWorldCommand))]).
Proof.
  intros Hargs Hna Heu.
  rewrite (dispatch_found env SetWatchWorldCommand (" " +:+ args)).
  unfold execute, bind.
  rewrite (Command_execute_refused env SetWatchWorldCommand _ args
             msg_bad_world); try reflexivity.
  - apply (has_args_valid SetWatchWorldCommand); [reflexivity | exact Hargs].
  - cbn [valid_custom]. rewrite Hargs. cbn [negb].
    apply String.eqb_neq in Hna. apply String.eqb_neq in Heu.
    rewrite Hna, Heu. reflexivity.
Qed.

Lemma set_world_rejects_other_arguments_witness :
  CommandManager_execute world_a1 (said "/set world na") stopped
  = (Ok (Returns (Some false)), stopped,
     [Send general (Text (msg_bad_world +:+ Py.nl
                          +:+ usage SetWatchWorldCommand))]).
Proof.
  apply (set_world_rejects_other_arguments world_a1 "na" general 7 stopped);
    [reflexivity | discriminate | discriminate].
Defined.

Lemma del_bl_unmatched args k : is_call k ("/del bl " +:+ args) = false.
Proof. destruct k; reflexivity. Qed.

(** X22. The blacklist is changed under the names [/add bl] and [/dl bl]:
    with a non-empty argument each hands the whole rest of the message,
    unchanged, to the method of the configuration object and confirms.
    The name [/del bl] that the usage text of the delete command shows is
    no command: such a message is answered with the invalid-command text
    and changes nothing. *)
Theorem blacklist_commands (env : Env) (args : string) (ch : Channel)
    (srv : N) (c : ASWDConfig) :
  Py.truthy args = true →
  CommandManager_execute env (from ch srv ("/add bl " +:+ args)) c
  = (Ok (Returns None), add_blacklist env c args,
     [Send ch (Text "ブラックリストに追加しました.")])
  ∧ CommandManager_execute env (from ch srv ("/dl bl " +:+ args)) c
    = (Ok (Returns None), del_blacklist env c args,
       [Send ch (Text "ブラックリストから削除しました.")])
  ∧ CommandManager_execute env (from ch srv ("/del bl " +:+ args)) c
    = (Ok (Returns (Some false)), c,
       [Send ch (Text (msg_invalid +:+ Py.nl +:+ usage HelpCommand))]).
Proof.
  intros Hargs. split; [|split].
  - rewrite (dispatch_valid env _ AddBlackListCommand args);
      try reflexivity.
    + apply (has_args_valid AddBlackListCommand);
        [reflexivity | exact Hargs].
    + cbn [valid_custom]. rewrite Hargs. reflexivity.
  - rewrite (dispatch_valid env _ DelBlackListCommand args);
      try reflexivity.
    + apply (has_args_valid DelBlackListCommand);
        [reflexivity | exact Hargs].
    + cbn [valid_custom]. rewrite Hargs. reflexivity.
  - unfold CommandManager_execute. cbn [content channel from].
    rewrite (find_none _ _ (del_bl_unmatched args)). reflexivity.
Qed.

Lemma blacklist_commands_witness :
  CommandManager_execute world_a1 (said "/del bl EvilDoer42") stopped
  = (Ok (Returns (Some false)), stopped,
     [Send general (Text (msg_invalid +:+ Py.nl +:+ usage HelpCommand))]).
Proof.
  apply (blacklist_commands world_a1 "EvilDoer42" general 7 stopped).
  reflexivity.
Defined.

(** ** The help branch of [Command.execute] (lines 66-74 and 114-117) *)

(** X23. The help of a single command is never shown: line 114 hands the
    message object to [is_cmd_help], which compares it with a string, so
    the branch of lines 115-117 is not taken, and no other branch sends the
    bare usage text.  Whatever the command and the message (also
    ["<name> /?"]), the usage text alone is not among the messages sent. *)
Theorem command_help_never_shown (env : Env) (k : Command)
    (message : Message) (c : ASWDConfig) :
  is_cmd_help k (inr message) = false
  ∧ Send (channel message) (Text (usage k))
    ∉ trace (Command_execute env k message c).
Proof.
  split; [reflexivity|].
  unfold Command_execute. cbn [is_cmd_help].
  destruct (is_valid k message); cbn [negb].
  - unfold bind, config, ret, send_message, emit, modify, raise,
      int_of_args.
    destruct k; cbn [valid_custom execute_cmd];
      unfold bind, config, ret, send_message, emit, modify, raise,
        int_of_args;
      repeat case_match; unfold ret, raise in *; simplify_eq;
      unfold trace; cbn [fst snd app]; intros Hin;
      repeat (apply elem_of_cons in Hin as [Hin | Hin];
              [vm_compute in Hin; discriminate Hin|]);
      inversion Hin.
  - unfold trace, send_message, emit, bind, ret. cbn [fst snd app].
    intros Hin. apply list_elem_of_singleton in Hin.
    destruct k; vm_compute in Hin; discriminate Hin.
Qed.

(** ** The remaining outcomes of the argument commands *)


(** X25. [/del server] with a non-empty argument whose [len] is 2 does one
    of three things: it refuses a name that is not, upper-cased, in the list
    of server names; it refuses a name that has no channel; otherwise it
    deletes that channel and announces it under the upper-cased name.  The
    configuration is never changed. *)
Theorem del_server_outcomes (env : Env) (args : string) (ch : Channel)
    (srv : N) (c : ASWDConfig) :
  Py.truthy args = true →
  str_len env args = 2 →
  CommandManager_execute env (from ch srv ("/del server " +:+ args)) c
  = if negb (Py.contains (SERVER_NAMES env) (str_upper env args))
    then (Ok (Returns (Some false)), c,
          [Send ch (Text (msg_bad_server_name +:+ Py.nl
                          +:+ usage DelServerCommand))])
    else match exists_channel env srv args with
         | Some existing =>
             (Ok (Returns None), c,
              [DeleteChannel existing;
               Send ch (Format "{}チャンネル削除."
                          [PyStr (str_upper env args)])])
         | None =>
             (Ok (Returns (Some false)), c,
              [Send ch (Text ("対象サーバは監視対象ではありません." +:+ Py.nl
                              +:+ usage DelServerCommand))])
         end.
Proof.
  intros Hargs Hlen.
  assert (Hlen' : (str_len env args =? 2) = true)
    by (apply Z.eqb_eq; exact Hlen).
  assert (Hvalid : is_valid DelServerCommand
                     (from ch srv ("/del server " +:+ args)) = true)
    by (apply (has_args_valid DelServerCommand); [reflexivity | exact Hargs]).
  destruct (Py.contains (SERVER_NAMES env) (str_upper env args)) eqn:Hname;
    cbn [negb].
  - destruct (exists_channel env srv args) as [existing|] eqn:Hch.
    + rewrite (dispatch_valid env _ DelServerCommand args);
        try reflexivity; [|exact Hvalid|].
      * unfold execute_cmd, bind, emit, send_message, ret.
        cbn [server from channel]. rewrite Hch. reflexivity.
      * cbn [valid_custom server from].
        rewrite Hargs, Hlen', Hname, Hch. reflexivity.
    + rewrite (dispatch_found env DelServerCommand (" " +:+ args)).
      unfold execute, bind.
      rewrite (Command_execute_refused env DelServerCommand _ args
                 "対象サーバは監視対象ではありません."); try reflexivity;
        [exact Hvalid|].
      cbn [valid_custom server from].
      rewrite Hargs, Hlen', Hname, Hch. reflexivity.
  - rewrite (dispatch_found env DelServerCommand (" " +:+ args)).
    unfold execute, bind.
    rewrite (Command_execute_refused env DelServerCommand _ args
               msg_bad_server_name); try reflexivity; [exact Hvalid|].
    cbn [valid_custom]. rewrite Hargs, Hlen', Hname. reflexivity.
Qed.

Lemma del_server_outcomes_witness :
  CommandManager_execute world_a1 (said "/del server a1") stopped
  = (Ok (Returns (Some false)), stopped,
     [Send general (Text ("対象サーバは監視対象ではありません." +:+ Py.nl
                          +:+ usage DelServerCommand))]).
Proof.
  apply (del_server_outcomes world_a1 "a1" general 7 stopped); reflexivity.
Defined.
